(** * LifeOS: taxonomy registry, context selector, organizer and chat session

    A shallow embedding of the logic of [src/index.tsx]: the React component
    state becomes the record [AppState], every handler becomes a function on
    it, and the two asynchronous handlers are cut at their [await] points
    into a start function and one resume function per suspension.

    Conventions.
    - Handlers are run on the state of the latest render, so the values a
      closure captured at the start of a handler are the fields of the state
      it is applied to; what an asynchronous handler keeps across an [await]
      is carried in a [Turn].
    - [alert], [confirm] and [prompt] are the only dialogs: the answers are
      arguments, the alerts are appended to the [alerts] log of the state.
    - [Date.now()], [Math.random()] identifiers and the formatted current
      date are arguments as well.
    - Operations of the JavaScript host that the program only calls are
      gathered in [Runtime]; [reference_runtime] is a concrete one used by
      the closed examples.

    Limits. JSON numbers are integers. Local time is UTC plus a fixed
    offset. A response text is represented by what [JSON.parse] makes of it.
    The prompt of the chat call is built, the prompt of the extraction call
    is not: that call is represented by its arguments. The two regeneration
    handlers are cut at their [await] like the submission. Of the dashboard, the handlers that delete an entry
    and that edit or delete a raw log are embedded; its filters, the quick
    entry form, the loading and saving of the state and the rendering are
    not. *)

From Stdlib Require Import ZArith Lia Ascii String.
From stdpp Require Import gmap strings list pretty.

Open Scope string_scope.
Open Scope list_scope.
Open Scope Z_scope.
Set Warnings "-register-all".

(** ** Completions: a JavaScript computation returns or throws *)

Inductive completion (A : Type) : Type :=
  | Normal (a : A)
  | Throw (e : string).
Arguments Normal {A} a.
Arguments Throw {A} e.

Definition cbind {A B} (c : completion A) (k : A -> completion B) : completion B :=
  match c with
  | Normal a => k a
  | Throw e => Throw e
  end.

(** [try { body } catch (e) { handler }] *)
Definition try_catch {A} (body : completion A) (handler : string -> completion A)
  : completion A :=
  match body with
  | Normal a => Normal a
  | Throw e => handler e
  end.

Fixpoint cmapM {A B} (f : nat -> A -> completion B) (i : nat) (l : list A)
  : completion (list B) :=
  match l with
  | [] => Normal []
  | x :: r =>
      cbind (f i x) (fun y => cbind (cmapM f (S i) r) (fun ys => Normal (y :: ys)))
  end.

(** ** JSON values, as [JSON.parse] produces them

    Numbers are integer valued; an object keeps its members in source order
    and a repeated key is read at its last occurrence. *)

Inductive json : Type :=
  | JNull
  | JBool (b : bool)
  | JNum (n : Z)
  | JStr (s : string)
  | JArr (items : list json)
  | JObj (members : list (string * json)).

(** A JavaScript value read from a property: [None] is [undefined]. *)
Definition jsval : Type := option json.

Definition nonempty (s : string) : bool :=
  match s with
  | EmptyString => false
  | String _ _ => true
  end.

(** ToBoolean *)
Definition truthy (v : json) : bool :=
  match v with
  | JNull => false
  | JBool b => b
  | JNum n => negb (n =? 0)
  | JStr s => nonempty s
  | JArr _ => true
  | JObj _ => true
  end.

Fixpoint member (k : string) (ms : list (string * json)) : jsval :=
  match ms with
  | [] => None
  | (k', v) :: r =>
      match member k r with
      | Some w => Some w
      | None => if String.eqb k k' then Some v else None
      end
  end.

(** [d.k] for a property name [k] that no built-in prototype defines
    ([date], [category], [event], [details]) and a [d] other than [null]:
    an own member of an object, [undefined] on anything else. *)
Definition property (d : json) (k : string) : jsval :=
  match d with
  | JObj ms => member k ms
  | _ => None
  end.

(** [d.k]: reading a property of [null] is a TypeError. *)
Definition getField (d : json) (k : string) : completion jsval :=
  match d with
  | JNull => Throw "TypeError: Cannot read properties of null"
  | _ => Normal (property d k)
  end.

(** [a || b] *)
Definition or_else (a : jsval) (b : json) : json :=
  match a with
  | Some v => if truthy v then v else b
  | None => b
  end.

(** ** The JavaScript host *)

Record Runtime : Type := {
  (** [process.env.API_KEY] *)
  GOOGLE_API_KEY : option string;
  (** local time is UTC plus this many milliseconds *)
  tzOffset : Z;
  (** [new Date(s).getTime()]; [None] is NaN *)
  Date_getTime : string -> option Z;
  (** conversion of a value inside a template literal; [None] is a TypeError *)
  ToString : jsval -> option string;
  (** [v > 0] *)
  gt_zero : json -> bool
}.

(** ** Data model *)

Inductive FieldType : Type :=
  | FText | FNumber | FSelect | FMultiselect | FDate | FRating.

Record FieldSchema : Type := {
  f_key : string;
  f_label : string;
  f_type : FieldType;
  f_required : option bool;
  f_options : option (list string);
  f_unit : option string;
  f_placeholder : option string
}.

Record GroupDef : Type := { g_id : string; g_label : string }.

Record CategoryMeta : Type := {
  c_group : string;
  c_color : string;
  c_icon : string;
  c_label : string
}.

(** An entry as the chat handler builds it: [date], [category], [event] and
    [details] hold whatever the candidate carried. *)
Record Entry : Type := {
  e_id : string;
  e_date : json;
  e_category : jsval;
  e_event : jsval;
  e_details : json;
  e_image : option string
}.

Inductive Role : Type := user | model | system.

Record ChatMessage : Type := {
  role : Role;
  text : string;
  timestamp : Z;
  relatedEntryIds : option (list string)
}.

Record RawLog : Type := { l_id : string; l_timestamp : Z; l_text : string }.

Inductive ContextMode : Type := global | today | week | custom.

Record ChatSettings : Type := {
  chatEnabled : bool;
  organizerEnabled : bool;
  contextRounds : Z;
  contextMode : ContextMode;
  customStartDate : string;
  customEndDate : string
}.

Definition Role_eqb (a b : Role) : bool :=
  match a, b with
  | user, user | model, model | system, system => true
  | _, _ => false
  end.

(** ** Initial taxonomy *)

Definition Group (id label : string) : GroupDef := {| g_id := id; g_label := label |}.

Definition INITIAL_GROUPS : list GroupDef :=
  [ Group "life" "日常"; Group "body" "身体"; Group "work" "工作" ].

Definition Meta (group color icon label : string) : CategoryMeta :=
  {| c_group := group; c_color := color; c_icon := icon; c_label := label |}.

Definition INITIAL_CATEGORY_META : gmap string CategoryMeta :=
  list_to_map
    [ ("finance_tracking", Meta "life" "bg-emerald-500" "Wallet" "记账");
      ("diary", Meta "life" "bg-indigo-500" "BookHeart" "日记/碎碎念");
      ("study", Meta "life" "bg-blue-500" "GraduationCap" "学习");
      ("entertainment", Meta "life" "bg-purple-500" "Gamepad2" "娱乐");
      ("movie", Meta "life" "bg-pink-500" "Film" "观影");
      ("reading", Meta "life" "bg-amber-600" "BookOpen" "读书");
      ("dining", Meta "life" "bg-orange-500" "Utensils" "餐饮");
      ("housework", Meta "life" "bg-cyan-600" "Home" "家务");
      ("personal_care", Meta "life" "bg-rose-400" "Sparkles" "个人护理");
      ("exercise", Meta "body" "bg-orange-600" "Dumbbell" "锻炼");
      ("sleep", Meta "body" "bg-slate-500" "Moon" "睡眠");
      ("weight", Meta "body" "bg-lime-600" "Scale" "体重");
      ("medical", Meta "body" "bg-red-500" "Stethoscope" "看病");
      ("checkup", Meta "body" "bg-teal-500" "Activity" "体检");
      ("physiology", Meta "body" "bg-rose-600" "Droplet" "生理期");
      ("work", Meta "work" "bg-sky-600" "Briefcase" "工作");
      ("idea", Meta "work" "bg-yellow-500" "Lightbulb" "灵感");
      ("other", Meta "life" "bg-gray-500" "Hash" "其他") ].

(** Field literals of the source: [Fld] has [required] set, [FldP] also a
    placeholder, [FldO] options, [FldU] a unit. *)
Definition Fld (k l : string) (t : FieldType) (req : bool) : FieldSchema :=
  {| f_key := k; f_label := l; f_type := t; f_required := Some req;
     f_options := None; f_unit := None; f_placeholder := None |}.

Definition FldP (k l : string) (t : FieldType) (req : bool) (ph : string) : FieldSchema :=
  {| f_key := k; f_label := l; f_type := t; f_required := Some req;
     f_options := None; f_unit := None; f_placeholder := Some ph |}.

Definition FldO (k l : string) (t : FieldType) (req : bool) (opts : list string)
  : FieldSchema :=
  {| f_key := k; f_label := l; f_type := t; f_required := Some req;
     f_options := Some opts; f_unit := None; f_placeholder := None |}.

Definition FldU (k l : string) (t : FieldType) (req : bool) (u : string) : FieldSchema :=
  {| f_key := k; f_label := l; f_type := t; f_required := Some req;
     f_options := None; f_unit := Some u; f_placeholder := None |}.

Definition createSchema (specificFields : list FieldSchema) : list FieldSchema :=
  [ FldP "summary" "简述" FText true "10字以内具体的事件描述";
    FldP "time" "时间" FText true "HH:mm";
    FldP "duration" "时长" FText false "例如: 30分钟" ]
  ++ specificFields
  ++ [ FldP "notes" "详情" FText true "原始信息全部内容原封不动的填写在这里" ].

Definition INITIAL_SCHEMAS : gmap string (list FieldSchema) :=
  list_to_map
    [ ("finance_tracking", createSchema
         [ FldO "transaction_type" "交易类型" FSelect true ["支出"; "收入"; "转账"];
           FldU "amount" "金额" FNumber true "元";
           FldO "currency" "货币" FSelect true ["CNY"; "USD"; "EUR"; "JPY"; "HKD"];
           FldO "tags" "分类" FMultiselect true
             ["餐饮"; "交通"; "购物"; "娱乐"; "医疗"; "教育"; "住房"; "旅行"; "人情";
              "工资"; "理财"; "其他"];
           FldO "payment_method" "支付方式" FSelect false
             ["微信"; "支付宝"; "信用卡"; "储蓄卡"; "现金"];
           Fld "merchant" "商家/对象" FText false ]);
      ("movie", createSchema
         [ Fld "title" "电影名称" FText true;
           Fld "genre" "类别" FText false;
           Fld "rating" "评分" FRating false ]);
      ("exercise", createSchema
         [ Fld "type" "运动项目" FText true;
           Fld "calories" "消耗卡路里" FNumber false;
           Fld "feeling" "感受" FText false ]);
      ("sleep", createSchema
         [ Fld "waketime" "醒来时间" FText false;
           FldO "quality" "睡眠质量" FSelect false ["很好"; "还行"; "一般"; "差"] ]);
      ("personal_care", createSchema
         [ Fld "item" "护理项目" FText true;
           Fld "product" "使用产品" FText false ]);
      ("weight", createSchema
         [ Fld "value" "体重(kg)" FNumber true;
           Fld "fat_rate" "体脂率(%)" FNumber false ]);
      ("diary", createSchema
         [ Fld "mood" "心情" FText false;
           Fld "weather" "天气" FText false ]);
      ("reading", createSchema
         [ Fld "book_name" "书名" FText true;
           Fld "author" "作者" FText false;
           Fld "progress" "进度" FText false ]);
      ("dining", createSchema
         [ Fld "food_items" "食物" FText true;
           Fld "calories" "热量" FNumber false ]);
      ("housework", createSchema
         [ Fld "task" "任务" FText true;
           Fld "area" "区域" FText false ]);
      ("medical", createSchema
         [ Fld "symptom" "症状" FText true;
           Fld "diagnosis" "诊断" FText false;
           Fld "medicine" "药物" FText false ]);
      ("checkup", createSchema
         [ Fld "hospital" "医院" FText false;
           Fld "project" "项目" FText true;
           Fld "result" "结果" FText false ]);
      ("physiology", createSchema
         [ FldO "status" "状态" FSelect true ["开始"; "结束"; "流量大"; "流量小"; "痛经"] ]);
      ("work", createSchema
         [ Fld "project" "项目" FText false;
           Fld "task" "任务" FText true;
           FldO "status" "状态" FSelect true ["进行中"; "已完成"; "延期"] ]);
      ("idea", createSchema [ Fld "topic" "主题" FText true ]);
      ("study", createSchema
         [ Fld "subject" "科目" FText true;
           Fld "content" "内容" FText true ]);
      ("entertainment", createSchema
         [ Fld "activity" "活动" FText true;
           Fld "partners" "同伴" FText false ]) ].

(** [['summary', 'time', 'duration', 'notes'].includes(k)] *)
Definition standardFields : list string := ["summary"; "time"; "duration"; "notes"].

Definition isStandard (k : string) : bool := existsb (String.eqb k) standardFields.

(** ** Strings *)

(** [s.includes(sub)] *)
Fixpoint includes (s sub : string) : bool :=
  if String.prefix sub s then true
  else match s with
       | EmptyString => false
       | String _ r => includes r sub
       end.

Definition code (a : ascii) : Z := Z.of_N (N_of_ascii a).

(** White space and line terminators that [trim] removes, by their UTF-8
    encodings of one, two and three bytes. *)
Definition ws1 (a : Z) : bool := ((9 <=? a) && (a <=? 13)) || (a =? 32).

Definition ws2 (a b : Z) : bool := (a =? 194) && (b =? 160).

Definition ws3 (a b c : Z) : bool :=
  ((a =? 225) && (b =? 154) && (c =? 128))
  || ((a =? 226) && (b =? 128)
      && (((128 <=? c) && (c <=? 138)) || (c =? 168) || (c =? 169) || (c =? 175)))
  || ((a =? 226) && (b =? 129) && (c =? 159))
  || ((a =? 227) && (b =? 128) && (c =? 128))
  || ((a =? 239) && (b =? 187) && (c =? 191)).

(** [!s.trim()]: the string is empty once trimmed. *)
Fixpoint blank (s : string) : bool :=
  match s with
  | EmptyString => true
  | String a r =>
      if ws1 (code a) then blank r
      else match r with
           | EmptyString => false
           | String b r2 =>
               if ws2 (code a) (code b) then blank r2
               else match r2 with
                    | EmptyString => false
                    | String c r3 =>
                        if ws3 (code a) (code b) (code c) then blank r3 else false
                    end
           end
  end.

(** [xs.join(sep)] *)
Fixpoint join (sep : string) (xs : list string) : string :=
  match xs with
  | [] => ""
  | [x] => x
  | x :: r => x +:+ sep +:+ join sep r
  end.


(** ** Dates

    A [Date] is its time value, milliseconds since the epoch. The calendar
    fields are those of the proleptic Gregorian calendar. *)

Definition msPerDay : Z := 86400000.

Definition daysFromCivil (y m d : Z) : Z :=
  let y' := if m <=? 2 then y - 1 else y in
  let era := y' / 400 in
  let yoe := y' - era * 400 in
  let mp := if 2 <? m then m - 3 else m + 9 in
  let doy := (153 * mp + 2) / 5 + d - 1 in
  let doe := yoe * 365 + yoe / 4 - yoe / 100 + doy in
  era * 146097 + doe - 719468.

(** year, month (1 to 12) and day of the month of a day number *)
Definition civilFromDays (z : Z) : Z * Z * Z :=
  let z' := z + 719468 in
  let era := z' / 146097 in
  let doe := z' - era * 146097 in
  let yoe := (doe - doe / 1460 + doe / 36524 - doe / 146096) / 365 in
  let doy := doe - (365 * yoe + yoe / 4 - yoe / 100) in
  let mp := (5 * doy + 2) / 153 in
  let d := doy - (153 * mp + 2) / 5 + 1 in
  let m := if mp <? 10 then mp + 3 else mp - 9 in
  let y := yoe + era * 400 in
  (if m <=? 2 then y + 1 else y, m, d).

Definition daysInMonth (y m : Z) : Z :=
  if m =? 2 then
    if ((y mod 4 =? 0) && negb (y mod 100 =? 0)) || (y mod 400 =? 0) then 29 else 28
  else if (m =? 4) || (m =? 6) || (m =? 9) || (m =? 11) then 30
  else 31.

Definition digit (a : ascii) : option Z :=
  let c := code a in
  if (48 <=? c) && (c <=? 57) then Some (c - 48) else None.

Fixpoint digits (acc : Z) (l : list ascii) : option Z :=
  match l with
  | [] => Some acc
  | a :: r => match digit a with
              | Some d => digits (acc * 10 + d) r
              | None => None
              end
  end.

(** The time value of a date-only string [YYYY-MM-DD], which JavaScript reads
    as midnight UTC; what a date input holds is such a string or the empty
    string. Every other string is NaN here. *)
Definition isoDateToTime (s : string) : option Z :=
  match list_ascii_of_string s with
  | [y1; y2; y3; y4; "-"%char; m1; m2; "-"%char; d1; d2] =>
      match digits 0 [y1; y2; y3; y4], digits 0 [m1; m2], digits 0 [d1; d2] with
      | Some y, Some m, Some d =>
          if (1 <=? m) && (m <=? 12) && (1 <=? d) && (d <=? daysInMonth y m)
          then Some (daysFromCivil y m d * msPerDay)
          else None
      | _, _, _ => None
      end
  | _ => None
  end.

(** ** A reference host for the closed examples: UTC, an API key, date-only
    strings, and the conversions of JSON values with integer numbers below
    10^21 in magnitude. *)

Definition elementString (f : json -> option string) (v : json) : option string :=
  match v with
  | JNull => Some ""
  | _ => f v
  end.

Fixpoint jsonToString (v : json) : option string :=
  match v with
  | JNull => Some "null"
  | JBool true => Some "true"
  | JBool false => Some "false"
  | JNum n => Some (pretty n)
  | JStr s => Some s
  | JArr items =>
      (fix go (l : list json) : option string :=
         match l with
         | [] => Some ""
         | [x] => elementString jsonToString x
         | x :: r =>
             match elementString jsonToString x, go r with
             | Some a, Some b => Some (a +:+ "," +:+ b)
             | _, _ => None
             end
         end) items
  | JObj ms =>
      match member "toString" ms with
      | Some _ => None
      | None => Some "[object Object]"
      end
  end.

Definition refToString (v : jsval) : option string :=
  match v with
  | None => Some "undefined"
  | Some j => jsonToString j
  end.

(** [v > 0] on [null], booleans and numbers. *)
Definition refGtZero (v : json) : bool :=
  match v with
  | JNum n => 0 <? n
  | JBool b => b
  | _ => false
  end.

Definition reference_runtime : Runtime :=
  {| GOOGLE_API_KEY := Some "key";
     tzOffset := 0;
     Date_getTime := isoDateToTime;
     ToString := refToString;
     gt_zero := refGtZero |}.

(** ** Component state

    [controllers] is the store of the [AbortController] objects created so
    far, each by its [signal.aborted] flag; [abortControllerRef] points into
    it. [alerts] logs the [alert] dialogs shown. *)

Record AppState : Type := {
  inputText : string;
  messages : list ChatMessage;
  entries : list Entry;
  rawLogs : list RawLog;
  isProcessing : bool;
  controllers : list bool;
  abortControllerRef : option nat;
  chatSettings : ChatSettings;
  customSchemas : gmap string (list FieldSchema);
  groups : list GroupDef;
  categoryMeta : gmap string CategoryMeta;
  editingSchemaCat : option string;
  alerts : list string
}.

Definition setInputText (v : string) (s : AppState) : AppState :=
  {| inputText := v;
     messages := messages s;
     entries := entries s;
     rawLogs := rawLogs s;
     isProcessing := isProcessing s;
     controllers := controllers s;
     abortControllerRef := abortControllerRef s;
     chatSettings := chatSettings s;
     customSchemas := customSchemas s;
     groups := groups s;
     categoryMeta := categoryMeta s;
     editingSchemaCat := editingSchemaCat s;
     alerts := alerts s |}.

Definition setMessages (v : list ChatMessage) (s : AppState) : AppState :=
  {| inputText := inputText s;
     messages := v;
     entries := entries s;
     rawLogs := rawLogs s;
     isProcessing := isProcessing s;
     controllers := controllers s;
     abortControllerRef := abortControllerRef s;
     chatSettings := chatSettings s;
     customSchemas := customSchemas s;
     groups := groups s;
     categoryMeta := categoryMeta s;
     editingSchemaCat := editingSchemaCat s;
     alerts := alerts s |}.

Definition setEntries (v : list Entry) (s : AppState) : AppState :=
  {| inputText := inputText s;
     messages := messages s;
     entries := v;
     rawLogs := rawLogs s;
     isProcessing := isProcessing s;
     controllers := controllers s;
     abortControllerRef := abortControllerRef s;
     chatSettings := chatSettings s;
     customSchemas := customSchemas s;
     groups := groups s;
     categoryMeta := categoryMeta s;
     editingSchemaCat := editingSchemaCat s;
     alerts := alerts s |}.

Definition setRawLogs (v : list RawLog) (s : AppState) : AppState :=
  {| inputText := inputText s;
     messages := messages s;
     entries := entries s;
     rawLogs := v;
     isProcessing := isProcessing s;
     controllers := controllers s;
     abortControllerRef := abortControllerRef s;
     chatSettings := chatSettings s;
     customSchemas := customSchemas s;
     groups := groups s;
     categoryMeta := categoryMeta s;
     editingSchemaCat := editingSchemaCat s;
     alerts := alerts s |}.

Definition setIsProcessing (v : bool) (s : AppState) : AppState :=
  {| inputText := inputText s;
     messages := messages s;
     entries := entries s;
     rawLogs := rawLogs s;
     isProcessing := v;
     controllers := controllers s;
     abortControllerRef := abortControllerRef s;
     chatSettings := chatSettings s;
     customSchemas := customSchemas s;
     groups := groups s;
     categoryMeta := categoryMeta s;
     editingSchemaCat := editingSchemaCat s;
     alerts := alerts s |}.

Definition setControllers (v : list bool) (s : AppState) : AppState :=
  {| inputText := inputText s;
     messages := messages s;
     entries := entries s;
     rawLogs := rawLogs s;
     isProcessing := isProcessing s;
     controllers := v;
     abortControllerRef := abortControllerRef s;
     chatSettings := chatSettings s;
     customSchemas := customSchemas s;
     groups := groups s;
     categoryMeta := categoryMeta s;
     editingSchemaCat := editingSchemaCat s;
     alerts := alerts s |}.

Definition setAbortControllerRef (v : option nat) (s : AppState) : AppState :=
  {| inputText := inputText s;
     messages := messages s;
     entries := entries s;
     rawLogs := rawLogs s;
     isProcessing := isProcessing s;
     controllers := controllers s;
     abortControllerRef := v;
     chatSettings := chatSettings s;
     customSchemas := customSchemas s;
     groups := groups s;
     categoryMeta := categoryMeta s;
     editingSchemaCat := editingSchemaCat s;
     alerts := alerts s |}.

Definition setChatSettings (v : ChatSettings) (s : AppState) : AppState :=
  {| inputText := inputText s;
     messages := messages s;
     entries := entries s;
     rawLogs := rawLogs s;
     isProcessing := isProcessing s;
     controllers := controllers s;
     abortControllerRef := abortControllerRef s;
     chatSettings := v;
     customSchemas := customSchemas s;
     groups := groups s;
     categoryMeta := categoryMeta s;
     editingSchemaCat := editingSchemaCat s;
     alerts := alerts s |}.

Definition setCustomSchemas (v : gmap string (list FieldSchema)) (s : AppState) : AppState :=
  {| inputText := inputText s;
     messages := messages s;
     entries := entries s;
     rawLogs := rawLogs s;
     isProcessing := isProcessing s;
     controllers := controllers s;
     abortControllerRef := abortControllerRef s;
     chatSettings := chatSettings s;
     customSchemas := v;
     groups := groups s;
     categoryMeta := categoryMeta s;
     editingSchemaCat := editingSchemaCat s;
     alerts := alerts s |}.

Definition setGroups (v : list GroupDef) (s : AppState) : AppState :=
  {| inputText := inputText s;
     messages := messages s;
     entries := entries s;
     rawLogs := rawLogs s;
     isProcessing := isProcessing s;
     controllers := controllers s;
     abortControllerRef := abortControllerRef s;
     chatSettings := chatSettings s;
     customSchemas := customSchemas s;
     groups := v;
     categoryMeta := categoryMeta s;
     editingSchemaCat := editingSchemaCat s;
     alerts := alerts s |}.

Definition setCategoryMeta (v : gmap string CategoryMeta) (s : AppState) : AppState :=
  {| inputText := inputText s;
     messages := messages s;
     entries := entries s;
     rawLogs := rawLogs s;
     isProcessing := isProcessing s;
     controllers := controllers s;
     abortControllerRef := abortControllerRef s;
     chatSettings := chatSettings s;
     customSchemas := customSchemas s;
     groups := groups s;
     categoryMeta := v;
     editingSchemaCat := editingSchemaCat s;
     alerts := alerts s |}.

Definition setEditingSchemaCat (v : option string) (s : AppState) : AppState :=
  {| inputText := inputText s;
     messages := messages s;
     entries := entries s;
     rawLogs := rawLogs s;
     isProcessing := isProcessing s;
     controllers := controllers s;
     abortControllerRef := abortControllerRef s;
     chatSettings := chatSettings s;
     customSchemas := customSchemas s;
     groups := groups s;
     categoryMeta := categoryMeta s;
     editingSchemaCat := v;
     alerts := alerts s |}.

Definition setAlerts (v : list string) (s : AppState) : AppState :=
  {| inputText := inputText s;
     messages := messages s;
     entries := entries s;
     rawLogs := rawLogs s;
     isProcessing := isProcessing s;
     controllers := controllers s;
     abortControllerRef := abortControllerRef s;
     chatSettings := chatSettings s;
     customSchemas := customSchemas s;
     groups := groups s;
     categoryMeta := categoryMeta s;
     editingSchemaCat := editingSchemaCat s;
     alerts := v |}.

Definition alert (msg : string) (s : AppState) : AppState :=
  setAlerts (alerts s ++ [msg]) s.

(** The state of the first render, before anything is loaded from storage;
    [isoToday] is [new Date().toISOString().split('T')[0]]. *)
Definition initialState (isoToday : string) : AppState :=
  {| inputText := "";
     messages := [];
     entries := [];
     rawLogs := [];
     isProcessing := false;
     controllers := [];
     abortControllerRef := None;
     chatSettings :=
       {| chatEnabled := true; organizerEnabled := true; contextRounds := 10;
          contextMode := global; customStartDate := isoToday;
          customEndDate := isoToday |};
     customSchemas := INITIAL_SCHEMAS;
     groups := INITIAL_GROUPS;
     categoryMeta := INITIAL_CATEGORY_META;
     editingSchemaCat := None;
     alerts := [] |}.

(** [signal.aborted] of controller [c] *)
Definition aborted (c : nat) (s : AppState) : bool :=
  default false (controllers s !! c).

(** [controller.abort()] *)
Definition abort (c : nat) (s : AppState) : AppState :=
  setControllers (<[c := true]> (controllers s)) s.

(** [customSchemas[cat] || []] *)
Definition fieldsOf (cat : string) (s : AppState) : list FieldSchema :=
  default [] (customSchemas s !! cat).

(** ** External inference calls *)

(** A response text, by what [JSON.parse] makes of it: a syntax error on
    [txt], or a value (the text is then not empty). *)
Inductive Text : Type :=
  | Malformed (txt : string)
  | WellFormed (v : json).

(** [!!txt] *)
Definition textTruthy (t : Text) : bool :=
  match t with
  | Malformed txt => nonempty txt
  | WellFormed _ => true
  end.

Definition JSON_parse (t : Text) : completion json :=
  match t with
  | Malformed _ => Throw "SyntaxError"
  | WellFormed v => Normal v
  end.

(** What [ai.models.generateContent] settles with: a rejection, or a response
    whose [text] may be [undefined]. *)
Inductive Reply (T : Type) : Type :=
  | Rejected (e : string)
  | Response (res_text : option T).
Arguments Rejected {T} e.
Arguments Response {T} res_text.

Definition generateContent {T} (r : Reply T) : completion (option T) :=
  match r with
  | Rejected e => Throw e
  | Response t => Normal t
  end.

(** ** Asynchronous handlers, cut at their [await]s *)

(** What [handleSendMessage] keeps in local constants across its [await]s. *)
Record Turn : Type := {
  controller : nat;
  userMsg : ChatMessage;
  settings : ChatSettings
}.

(** The [await] a submission is suspended at, with the arguments of the
    call. The chat call of a submission leaves [regenerate] at its default,
    [false]: its prompt is [chatPrompt _ history newMsg false]. *)
Inductive Suspended : Type :=
  | AwaitChat (t : Turn) (history : list ChatMessage) (newMsg : string)
  | AwaitOrganizer (t : Turn) (text_ : string) (dateStr : string).

(** A handler returns, suspends at an [await], or rejects. A handler that
    has returned may have queued a state updater that throws when React runs
    it, in the render that follows: that is [Crash], React commits none of
    the updates of that render and unmounts the component; the state carried
    is the one last committed. *)
Inductive Step : Type :=
  | Done (s : AppState)
  | Await (s : AppState) (k : Suspended)
  | Fail (s : AppState) (e : string)
  | Crash (s : AppState) (e : string).

Definition stateOf (r : Step) : AppState :=
  match r with
  | Done s => s
  | Await s _ => s
  | Fail s _ => s
  | Crash s _ => s
  end.

(** The suspension a handler stopped at, if it did. *)
Definition suspendedOf (r : Step) : option Suspended :=
  match r with
  | Await _ k => Some k
  | _ => None
  end.

(** [l.slice(start)] for an integer [start] *)
Definition slice {A} (start : Z) (l : list A) : list A :=
  let len := Z.of_nat (length l) in
  let k := if start <? 0 then Z.max (len + start) 0 else Z.min start len in
  drop (Z.to_nat k) l.

(** Comparisons of a time stamp with a time value that may be NaN. *)
Definition geNum (a : Z) (b : option Z) : bool :=
  match b with Some y => y <=? a | None => false end.

Definition leNum (a : Z) (b : option Z) : bool :=
  match b with Some y => a <=? y | None => false end.

Definition pad (w : nat) (n : Z) : string :=
  let p := pretty n in
  string_of_list_ascii (replicate (w - String.length p) "0"%char) +:+ p.

Section Handlers.

Context (rt : Runtime).

(** *** Local calendar fields of a time value *)

Definition localDay (t : Z) : Z := (t + tzOffset rt) / msPerDay.

Definition getFullYear (t : Z) : Z := (civilFromDays (localDay t)).1.1.

(** January is 0. *)
Definition getMonth (t : Z) : Z := (civilFromDays (localDay t)).1.2 - 1.

Definition getDate (t : Z) : Z := (civilFromDays (localDay t)).2.

(** [d.setHours(h, m, sec, ms)] *)
Definition setHours (t h m sec ms : Z) : Z :=
  t - (t + tzOffset rt) mod msPerDay + ((h * 60 + m) * 60 + sec) * 1000 + ms.

(** [d.setDate(d.getDate() + n)] *)
Definition addDays (t n : Z) : Z := t + n * msPerDay.

Definition formatDate (t : Z) : string :=
  let y := getFullYear t in
  let year := if (0 <=? y) && (y <=? 9999) then pad 4 y
              else (if y <? 0 then "-" else "+") +:+ pad 6 (Z.abs y) in
  year +:+ "-" +:+ pad 2 (getMonth t + 1) +:+ "-" +:+ pad 2 (getDate t).

Definition getRollingWeekRange (startDate : Z) : Z * Z :=
  let start := setHours startDate 0 0 0 0 in
  let end_ := setHours (addDays start 6) 23 59 59 999 in
  (start, end_).

Definition isSameDay (d1 d2 : Z) : bool :=
  (getFullYear d1 =? getFullYear d2)
  && (getMonth d1 =? getMonth d2)
  && (getDate d1 =? getDate d2).

(** *** Context window selector *)

Definition getFilteredHistory (now : Z) (st : AppState) : list ChatMessage :=
  let cs := chatSettings st in
  let filtered := filter (λ m, Is_true (Role_eqb (role m) user)) (messages st) in
  let filtered :=
    match contextMode cs with
    | today => filter (λ m, Is_true (isSameDay (timestamp m) now)) filtered
    | week =>
        let '(start, end_) := getRollingWeekRange now in
        filter (λ m, Is_true ((start <=? timestamp m) && (timestamp m <=? end_)))
          filtered
    | custom =>
        let s := Date_getTime rt (customStartDate cs) in
        let e := (λ x, x + 86400000) <$> Date_getTime rt (customEndDate cs) in
        filter (λ m, Is_true (geNum (timestamp m) s && leNum (timestamp m) e))
          filtered
    | global => filtered
    end in
  if contextRounds cs <? 9999 then slice (- contextRounds cs) filtered
  else filtered.

(** *** The two inference calls *)

Definition hasApiKey : bool :=
  match GOOGLE_API_KEY rt with
  | Some k => nonempty k
  | None => false
  end.


(** From the settling of the request: [reply] is what the request settles
    with, [Rejected e] carrying the message [e] of the error, and
    [signalAborted] is [signal.aborted] by then. An abort before the request
    returns the empty string at once, an abort during it rejects the race
    with the message [Aborted], and the [catch] turns every error of that
    message into the empty string. *)
Definition chatWithGemini (signalAborted : bool) (reply : Reply string) : string :=
  if negb hasApiKey then "Error: No API Key"
  else if signalAborted then ""
  else match generateContent reply with
       | Normal res_text => default "" res_text
       | Throw e =>
           if String.eqb e "Aborted" then ""
           else "Thinking process interrupted or failed."
       end.

Definition organizeInput (reply : Reply Text) : completion json :=
  if negb hasApiKey then Normal (JArr [])
  else
    try_catch
      (cbind (generateContent reply) (λ res_text,
         match res_text with
         | None => Normal (JArr [])
         | Some txt =>
             if negb (textTruthy txt) then Normal (JArr [])
             else JSON_parse txt
         end))
      (λ _, Normal (JArr [])).

(** *** Sending a message *)

(** [structuredData.length > 0] for a truthy value *)
Definition lengthPositive (v : json) : bool :=
  match v with
  | JArr items => negb (bool_decide (items = []))
  | JStr str => nonempty str
  | JObj ms =>
      match member "length" ms with
      | Some n => gt_zero rt n
      | None => false
      end
  | _ => false
  end.

(** [d?.k] *)
Definition getFieldOpt (d : json) (k : string) : completion jsval :=
  match d with
  | JNull => Normal None
  | _ => getField d k
  end.

(** The callback of [structuredData.map]; [ids i] is the identifier drawn
    for the element at index [i]. *)
Definition newEntry (today_ : string) (ids : nat -> string) (i : nat) (d : json)
  : completion Entry :=
  cbind (getField d "date") (λ date,
  cbind (getField d "category") (λ category,
  cbind (getField d "event") (λ event,
  cbind (getFieldOpt d "details") (λ details,
    Normal {| e_id := ids i;
              e_date := or_else date (JStr today_);
              e_category := category;
              e_event := event;
              e_details := or_else details (JObj []);
              e_image := None |})))).

(** [structuredData.map(...)] *)
Definition mapEntries (today_ : string) (ids : nat -> string) (structuredData : json)
  : completion (list Entry) :=
  match structuredData with
  | JArr items => cmapM (newEntry today_ ids) 0 items
  | _ => Throw "TypeError: structuredData.map is not a function"
  end.

Fixpoint sequence (l : list (option string)) : completion (list string) :=
  match l with
  | [] => Normal []
  | Some x :: r => cbind (sequence r) (λ xs, Normal (x :: xs))
  | None :: _ => Throw "TypeError: Cannot convert object to primitive value"
  end.

Definition savedLine (e : Entry) : option string :=
  match ToString rt (Some (e_date e)), ToString rt (e_event e) with
  | Some date, Some event => Some ("[" +:+ date +:+ "] " +:+ event)
  | _, _ => None
  end.

Definition savedText (newEntries : list Entry) : completion string :=
  cbind (sequence (savedLine <$> newEntries)) (λ lines,
    Normal ("Saved: " +:+ join ", " lines)).

(** The last two statements of [handleSendMessage]. *)
Definition finishTurn (s : AppState) : AppState :=
  setAbortControllerRef None (setIsProcessing false s).

(** The organizer block up to its [await]. *)
Definition startOrganizer (t : Turn) (now : Z) (s : AppState) : Step :=
  if organizerEnabled (settings t)
  then Await s (AwaitOrganizer t (text (userMsg t)) (formatDate now))
  else Done (finishTurn s).

(** [handleSendMessage] up to its first [await]: [sentAt] is [Date.now()],
    [logId] the identifier drawn for the raw log, [now] the clock read by
    the context selector and by the organizer block. *)
Definition handleSendMessage (sentAt : Z) (logId : string) (now : Z) (s : AppState)
  : Step :=
  if blank (inputText s) then Done s
  else if isProcessing s then Done s
  else
    let c := length (controllers s) in
    let userMsg :=
      {| role := user; text := inputText s; timestamp := sentAt;
         relatedEntryIds := None |} in
    let t := {| controller := c; userMsg := userMsg; settings := chatSettings s |} in
    let s1 := setControllers (controllers s ++ [false]) s in
    let s1 := setAbortControllerRef (Some c) s1 in
    let s1 := setIsProcessing true s1 in
    let s1 := setMessages (messages s ++ [userMsg]) s1 in
    let s1 := setInputText "" s1 in
    let s1 :=
      setRawLogs
        (rawLogs s1 ++ [{| l_id := logId; l_timestamp := timestamp userMsg;
                           l_text := text userMsg |}]) s1 in
    let relevantHistory := getFilteredHistory now s in
    if chatEnabled (chatSettings s)
    then Await s1 (AwaitChat t relevantHistory (text userMsg))
    else startOrganizer t now s1.

(** [handleSendMessage] from the settling of the chat call to the next
    [await] or the end; [repliedAt] is the [Date.now()] of the model message. *)
Definition resumeChat (t : Turn) (reply : Reply string) (repliedAt now : Z)
    (s : AppState) : Step :=
  let chatResponse :=
    let r := chatWithGemini (aborted (controller t) s) reply in
    if nonempty r then r else "..." in
  if aborted (controller t) s then Done (setIsProcessing false s)
  else
    let s1 :=
      setMessages
        (messages s ++ [{| role := model; text := chatResponse;
                           timestamp := repliedAt; relatedEntryIds := None |}]) s in
    startOrganizer t now s1.

(** [handleSendMessage] from the settling of [organizeInput] to the end;
    [savedAt] is the [Date.now()] of the system message. The text of that
    message is built inside the updater handed to [setMessages]: the handler
    itself runs to its end, and when the text cannot be built it is the
    render that throws. *)
Definition resumeOrganizer (t : Turn) (today_ : string) (ids : nat -> string)
    (savedAt : Z) (reply : Reply Text) (s : AppState) : Step :=
  match organizeInput reply with
  | Throw e => Fail s e
  | Normal structuredData =>
      if truthy structuredData && lengthPositive structuredData then
        match mapEntries today_ ids structuredData with
        | Throw e => Fail s e
        | Normal newEntries =>
            let s1 := setEntries (entries s ++ newEntries) s in
            let entryIds := e_id <$> newEntries in
            match savedText newEntries with
            | Throw e => Crash s e
            | Normal saved =>
                let s2 :=
                  setMessages
                    (messages s1 ++ [{| role := system; text := saved;
                                        timestamp := savedAt;
                                        relatedEntryIds := Some entryIds |}]) s1 in
                Done (finishTurn s2)
            end
        end
      else Done (finishTurn s)
  end.

Definition handleStop (s : AppState) : AppState :=
  match abortControllerRef s with
  | Some c => setIsProcessing false (abort c s)
  | None => s
  end.

(** *** Undo *)

(** [{ ...m, text: m.text + " (Revoked)" }] *)
Definition revoke (m : ChatMessage) : ChatMessage :=
  {| role := role m; text := text m +:+ " (Revoked)"; timestamp := timestamp m;
     relatedEntryIds := relatedEntryIds m |}.

Definition handleUndo (msgIndex : nat) (entryIds : list string) (s : AppState)
  : AppState :=
  let s1 := setEntries (filter (λ e, e_id e ∉ entryIds) (entries s)) s in
  setMessages
    (imap (λ i m, if (i =? msgIndex)%nat then revoke m else m) (messages s1)) s1.

(** The control rendered under message [idx]: a [Revoke] button calling
    [handleUndo] on a system message with related entries whose text does not
    contain the mark, otherwise a label (or nothing) that does nothing. *)
Definition clickRevoke (idx : nat) (s : AppState) : AppState :=
  match messages s !! idx with
  | Some msg =>
      match role msg, relatedEntryIds msg with
      | system, Some ids =>
          if includes (text msg) "(Revoked)" then s else handleUndo idx ids s
      | _, _ => s
      end
  | None => s
  end.

End Handlers.

(** ** Taxonomy registry

    [confirmed] is the answer to the [confirm] dialog when the handler gets
    as far as asking; a [prompt] answers with a string or, cancelled, with
    [None]. *)

Definition isCoreGroup (id : string) : bool :=
  existsb (λ g, String.eqb (g_id g) id) INITIAL_GROUPS.

Definition addGroup (label : option string) (id : string) (s : AppState) : AppState :=
  match label with
  | Some l =>
      if nonempty l then setGroups (groups s ++ [Group id l]) s else s
  | None => s
  end.

Definition deleteGroup (id : string) (confirmed : bool) (s : AppState) : AppState :=
  if isCoreGroup id then alert "Cannot delete core groups." s
  else if confirmed
       then setGroups (filter (λ g, g_id g ≠ id) (groups s)) s
       else s.

(** [rnd] is the random suffix of the new key. *)
Definition addCategory (groupId : string) (label : option string) (rnd : string)
    (s : AppState) : AppState :=
  match label with
  | Some l =>
      if nonempty l then
        let key := "cat_" +:+ rnd in
        let s1 := setCategoryMeta (<[key := Meta groupId "bg-gray-600" "Hash" l]>
                                     (categoryMeta s)) s in
        let s2 := setCustomSchemas (<[key := createSchema []]> (customSchemas s)) s1 in
        setEditingSchemaCat (Some key) s2
      else s
  | None => s
  end.

Definition deleteCategory (key : string) (confirmed : bool) (s : AppState) : AppState :=
  if confirmed then
    let s1 := setCategoryMeta (delete key (categoryMeta s)) s in
    if bool_decide (editingSchemaCat s = Some key)
    then setEditingSchemaCat None s1
    else s1
  else s.

(** The category under edit, when [editingSchemaCat] is truthy. *)
Definition editedCategory (s : AppState) : option string :=
  match editingSchemaCat s with
  | Some c => if nonempty c then Some c else None
  | None => None
  end.

(** [rnd] is the random suffix of the new field key. *)
Definition addField (rnd : string) (s : AppState) : AppState :=
  match editedCategory s with
  | None => s
  | Some cat =>
      let newField := Fld ("field_" +:+ rnd) "New Field" FText false in
      let currentFields := fieldsOf cat s in
      let currentFields :=
        match list_find (λ f, f_key f = "notes") currentFields with
        | Some (notesIdx, _) =>
            take notesIdx currentFields ++ newField :: drop notesIdx currentFields
        | None => currentFields ++ [newField]
        end in
      setCustomSchemas (<[cat := currentFields]> (customSchemas s)) s
  end.

Definition removeField (idx : nat) (confirmed : bool) (s : AppState)
  : completion AppState :=
  match editedCategory s with
  | None => Normal s
  | Some cat =>
      let currentFields := fieldsOf cat s in
      match currentFields !! idx with
      | None => Throw "TypeError: Cannot read properties of undefined"
      | Some f =>
          if isStandard (f_key f) then Normal (alert "Cannot delete standard fields" s)
          else if confirmed
               then Normal (setCustomSchemas
                              (<[cat := delete idx currentFields]> (customSchemas s)) s)
               else Normal s
      end
  end.

(** ** Further handlers of the schema editor *)

(** The direction of [moveGroup]: [-1] or [1]. *)
Inductive Dir : Type := Up | Down.

(** [idx + dir] *)
Definition neighbour (idx : nat) (dir : Dir) : nat :=
  match dir with
  | Up => pred idx
  | Down => S idx
  end.

Definition isUp (dir : Dir) : bool :=
  match dir with Up => true | Down => false end.

(** [moveGroup] swaps a group with its neighbour. With an index outside the
    array the source stores [undefined] among the groups: that is [None]. *)
Definition moveGroup (idx : nat) (dir : Dir) (s : AppState) : option AppState :=
  if ((idx =? 0)%nat && isUp dir)
     || ((Z.of_nat idx =? Z.of_nat (length (groups s)) - 1) && negb (isUp dir))
  then Some s
  else
    match groups s !! idx, groups s !! neighbour idx dir with
    | Some temp, Some other =>
        Some (setGroups (<[neighbour idx dir := temp]> (<[idx := other]> (groups s))) s)
    | _, _ => None
    end.

(** [Partial<FieldSchema>]: the properties a patch sets. *)
Record FieldPatch : Type := {
  p_key : option string;
  p_label : option string;
  p_type : option FieldType;
  p_required : option bool;
  p_options : option (list string);
  p_unit : option string;
  p_placeholder : option string
}.

Definition over {A} (old : option A) (new : option A) : option A :=
  match new with
  | Some x => Some x
  | None => old
  end.

(** [{ ...f, ...changes }] *)
Definition patchField (f : FieldSchema) (changes : FieldPatch) : FieldSchema :=
  {| f_key := default (f_key f) (p_key changes);
     f_label := default (f_label f) (p_label changes);
     f_type := default (f_type f) (p_type changes);
     f_required := over (f_required f) (p_required changes);
     f_options := over (f_options f) (p_options changes);
     f_unit := over (f_unit f) (p_unit changes);
     f_placeholder := over (f_placeholder f) (p_placeholder changes) |}.

(** [updateField]; its first parameter is not used by the source. With an
    index outside the array the source stores an object holding the patch
    alone: that is [None]. *)
Definition updateField (key : string) (idx : nat) (changes : FieldPatch) (s : AppState)
  : option AppState :=
  match editedCategory s with
  | None => Some s
  | Some cat =>
      let currentFields := fieldsOf cat s in
      match currentFields !! idx with
      | Some f =>
          Some (setCustomSchemas
                  (<[cat := <[idx := patchField f changes]> currentFields]>
                     (customSchemas s)) s)
      | None => None
      end
  end.

(** ** Further handlers of the chat view *)

(** The chat view keeps, beside the component state, the message under edit
    and the text of the edit box. *)
Record ChatView : Type := {
  app : AppState;
  editingMsgIndex : option nat;
  editingMsgText : string
}.

(** [{ ...m, text: t }] *)
Definition withText (m : ChatMessage) (t : string) : ChatMessage :=
  {| role := role m; text := t; timestamp := timestamp m;
     relatedEntryIds := relatedEntryIds m |}.

Definition handleDeleteMessage (index : nat) (s : AppState) : AppState :=
  setMessages (delete index (messages s)) s.

(** With an index outside the array the source stores an object holding the
    text alone: that is [None]. *)
Definition handleUpdateMessage (index : nat) (newText : string) (v : ChatView)
  : option ChatView :=
  match messages (app v) !! index with
  | Some m =>
      Some {| app := setMessages (<[index := withText m newText]> (messages (app v)))
                       (app v);
              editingMsgIndex := None;
              editingMsgText := editingMsgText v |}
  | None => None
  end.

(** [handleRegenerateChat] returns, suspends at its [await] with the
    controller it created and the arguments of the chat call, or rejects. *)
Inductive Regen : Type :=
  | RegenDone (s : AppState)
  | RegenAwait (s : AppState) (c : nat) (history : list ChatMessage) (newMsg : string)
      (regenerate : bool)
  | RegenFail (s : AppState) (e : string).

(** [handleSaveAndRegenerate] at its [await], with the controller it
    created and the arguments of the chat call. *)
Record Replay : Type := {
  r_view : ChatView;
  r_controller : nat;
  r_history : list ChatMessage;
  r_newMsg : string;
  r_regenerate : bool
}.

Section Regeneration.

Context (rt : Runtime).

(** [handleRegenerateChat] up to its [await]; [now] is the clock read by the
    context selector. The callback of the last filter reads
    [messages[msgIndex].timestamp] once per selected message. *)
Definition handleRegenerateChat (msgIndex : nat) (now : Z) (s : AppState) : Regen :=
  let prevMsgs := take msgIndex (messages s) in
  match last (filter (λ m, Is_true (Role_eqb (role m) user)) prevMsgs) with
  | None => RegenDone s
  | Some userMsg =>
      let s1 := setIsProcessing true s in
      let c := length (controllers s) in
      let s1 := setControllers (controllers s ++ [false]) s1 in
      let s1 := setAbortControllerRef (Some c) s1 in
      match getFilteredHistory rt now s with
      | [] => RegenAwait s1 c [] (text userMsg) true
      | selected =>
          match messages s !! msgIndex with
          | Some target =>
              RegenAwait s1 c
                (filter (λ m, Is_true (timestamp m <? timestamp target)) selected)
                (text userMsg) true
          | None => RegenFail s1 "TypeError: Cannot read properties of undefined"
          end
      end
  end.

(** [handleRegenerateChat] from the settling of the chat call of controller
    [c] to the end. When the message at [msgIndex] is gone by then the source
    stores an object holding the text alone: that is [None]. *)
Definition resumeRegenerate (msgIndex : nat) (c : nat) (reply : Reply string)
    (s : AppState) : option AppState :=
  let newResponse := chatWithGemini rt (aborted c s) reply in
  if aborted c s then Some (setIsProcessing false s)
  else
    match messages s !! msgIndex with
    | Some m =>
        let t := if nonempty newResponse then newResponse else "..." in
        Some (setIsProcessing false
                (setMessages (<[msgIndex := withText m t]> (messages s)) s))
    | None => None
    end.

(** The selection written out in [handleSaveAndRegenerate], over the
    truncated message list. *)
Definition replayHistory (now : Z) (cs : ChatSettings) (nextMessages : list ChatMessage)
  : list ChatMessage :=
  let history := filter (λ m, Is_true (Role_eqb (role m) user)) nextMessages in
  let history :=
    match contextMode cs with
    | today => filter (λ m, Is_true (isSameDay rt (timestamp m) now)) history
    | week =>
        let '(start, end_) := getRollingWeekRange rt now in
        filter (λ m, Is_true ((start <=? timestamp m) && (timestamp m <=? end_)))
          history
    | custom =>
        let s := Date_getTime rt (customStartDate cs) in
        let e := (λ x, x + 86400000) <$> Date_getTime rt (customEndDate cs) in
        filter (λ m, Is_true (geNum (timestamp m) s && leNum (timestamp m) e))
          history
    | global => history
    end in
  if contextRounds cs <? 9999 then slice (- contextRounds cs) history
  else history.

(** [handleSaveAndRegenerate] up to its [await]. With an index outside the
    array the source stores an object holding the text alone: that is
    [None]. *)
Definition handleSaveAndRegenerate (index : nat) (newText : string) (now : Z)
    (v : ChatView) : option Replay :=
  let s := app v in
  match messages s !! index with
  | None => None
  | Some m =>
      let nextMessages := <[index := withText m newText]> (take (S index) (messages s)) in
      let s1 := setMessages nextMessages s in
      let c := length (controllers s) in
      let s1 := setControllers (controllers s ++ [false]) s1 in
      let s1 := setAbortControllerRef (Some c) s1 in
      let s1 := setIsProcessing true s1 in
      Some {| r_view := {| app := s1; editingMsgIndex := None;
                           editingMsgText := editingMsgText v |};
              r_controller := c;
              r_history := replayHistory now (chatSettings s) nextMessages;
              r_newMsg := "";
              r_regenerate := true |}
  end.

(** [handleSaveAndRegenerate] from the settling of the chat call of
    controller [c] to the end; [repliedAt] is the [Date.now()] of the model
    message. *)
Definition resumeSaveAndRegenerate (c : nat) (reply : Reply string) (repliedAt : Z)
    (s : AppState) : AppState :=
  let response := chatWithGemini rt (aborted c s) reply in
  if aborted c s then setIsProcessing false s
  else
    setIsProcessing false
      (setMessages
         (messages s ++ [{| role := model; text := response; timestamp := repliedAt;
                            relatedEntryIds := None |}]) s).

End Regeneration.

(** ** Handlers of the dashboard *)

Definition handleDeleteEntry (id : string) (confirmed : bool) (s : AppState) : AppState :=
  if confirmed then setEntries (filter (λ entry, e_id entry ≠ id) (entries s)) s
  else s.

Definition handleDeleteLog (id : string) (confirmed : bool) (s : AppState) : AppState :=
  if confirmed then setRawLogs (filter (λ log, l_id log ≠ id) (rawLogs s)) s
  else s.

(** [editingLogText] is the text of the edit box of the log view. *)
Definition handleSaveLogEdit (id : string) (editingLogText : string) (s : AppState)
  : AppState :=
  setRawLogs
    ((λ log, if String.eqb (l_id log) id
             then {| l_id := l_id log; l_timestamp := l_timestamp log;
                     l_text := editingLogText |}
             else log) <$> rawLogs s) s.

(** ** Actions

    The handlers that act at once on the component state, as one type, and
    their effect; [None] where the handler throws or leaves the data
    model. *)

Inductive Action : Type :=
  | Stop
  | Undo (msgIndex : nat) (entryIds : list string)
  | Revoke (idx : nat)
  | DeleteMessage (index : nat)
  | DeleteEntry (id : string) (confirmed : bool)
  | AddGroup (label : option string) (id : string)
  | DeleteGroup (id : string) (confirmed : bool)
  | MoveGroup (idx : nat) (dir : Dir)
  | AddCategory (groupId : string) (label : option string) (rnd : string)
  | DeleteCategory (key : string) (confirmed : bool)
  | SelectCategory (key : string)
  | AddField (rnd : string)
  | RemoveField (idx : nat) (confirmed : bool)
  | UpdateField (key : string) (idx : nat) (changes : FieldPatch).

Definition perform (a : Action) (s : AppState) : option AppState :=
  match a with
  | Stop => Some (handleStop s)
  | Undo msgIndex entryIds => Some (handleUndo msgIndex entryIds s)
  | Revoke idx => Some (clickRevoke idx s)
  | DeleteMessage index => Some (handleDeleteMessage index s)
  | DeleteEntry id confirmed => Some (handleDeleteEntry id confirmed s)
  | AddGroup label id => Some (addGroup label id s)
  | DeleteGroup id confirmed => Some (deleteGroup id confirmed s)
  | MoveGroup idx dir => moveGroup idx dir s
  | AddCategory groupId label rnd => Some (addCategory groupId label rnd s)
  | DeleteCategory key confirmed => Some (deleteCategory key confirmed s)
  | SelectCategory key => Some (setEditingSchemaCat (Some key) s)
  | AddField rnd => Some (addField rnd s)
  | RemoveField idx confirmed =>
      match removeField idx confirmed s with
      | Normal s' => Some s'
      | Throw _ => None
      end
  | UpdateField key idx changes => updateField key idx changes s
  end.

Fixpoint performAll (l : list Action) (s : AppState) : option AppState :=
  match l with
  | [] => Some s
  | a :: r =>
      match perform a s with
      | Some s' => performAll r s'
      | None => None
      end
  end.

(** ** States and inputs of the closed examples *)

Definition settingsWith (chat organizer : bool) (rounds : Z) (mode : ContextMode)
  : ChatSettings :=
  {| chatEnabled := chat; organizerEnabled := organizer; contextRounds := rounds;
     contextMode := mode; customStartDate := "2024-01-01";
     customEndDate := "2024-01-01" |}.

(** The first render on 2024-01-01 with [input] typed into the box. *)
Definition typed (input : string) : AppState :=
  setInputText input (initialState "2024-01-01").

(** 2024-01-01T12:00:00.000Z *)
Definition noon : Z := 1704110400000.

Definition userSaid (txt : string) (at_ : Z) : ChatMessage :=
  {| role := user; text := txt; timestamp := at_; relatedEntryIds := None |}.

Definition candidate (category : string) (event : string) : json :=
  JObj [ ("date", JStr "2024-01-01");
         ("category", JStr category);
         ("event", JStr event);
         ("details", JObj [("summary", JStr event); ("time", JStr "12:00")]) ].

(** A turn started from the default settings with controller 0. *)
Definition turn0 : Turn :=
  {| controller := 0; userMsg := userSaid "lunch then a film" noon;
     settings := settingsWith true true 10 global |}.

Definition sampleIds (i : nat) : string := "id" +:+ pretty i.

(** The message is sent at noon from the first render ... *)
Definition sent : Step :=
  handleSendMessage reference_runtime noon "log1" noon (typed "lunch then a film").

(** ... and the chat call answers a millisecond later: the extraction call
    of [turn0] is now in flight. *)
Definition answered : Step :=
  resumeChat reference_runtime turn0 (Response (Some "Enjoy!")) (noon + 1) (noon + 1)
    (stateOf sent).

(** An action that leaves the keys of the fields alone: every action but a
    field update whose patch sets [key]. The editor sends patches of [label],
    [type], [required] and [options] only. *)
Definition keepsKeys (a : Action) : Prop :=
  match a with
  | UpdateField _ _ changes => p_key changes = None
  | _ => True
  end.

(** The extraction call of [turn0] answers with two candidates. *)
Definition extracted : Step :=
  resumeOrganizer reference_runtime turn0 "2024-01-01" sampleIds (noon + 2)
    (Response (Some (WellFormed (JArr [candidate "dining" "lunch";
                                       candidate "movie" "film"]))))
    (stateOf answered).

(** A session after the extraction: the batch is revoked, the user message
    deleted, a group added and moved, a category selected and edited. *)
Definition sampleActions : list Action :=
  [ Revoke 2; DeleteMessage 0; Stop; DeleteEntry "id1" true;
    AddGroup (Some "Travel") "k3x9ab"; MoveGroup 3 Up; DeleteGroup "life" true;
    DeleteGroup "k3x9ab" true; SelectCategory "idea"; AddField "q1w2e3";
    UpdateField "topic" 3 {| p_key := None; p_label := Some "Topic"; p_type := None;
                             p_required := Some false; p_options := None;
                             p_unit := None; p_placeholder := None |};
    RemoveField 0 true; RemoveField 3 true;
    AddCategory "life" (Some "Trips") "a1b2c3d4"; DeleteCategory "idea" true ].

(** A reply of the extraction call that carries no candidate: anything but
    a text that parses, and of the values a text can parse to the empty
    array, [null], a boolean, a number and the empty string. *)
Definition yieldsNothing (reply : Reply Text) : Prop :=
  match reply with
  | Response (Some (WellFormed v)) =>
      match v with
      | JArr items => items = []
      | JStr str => str = ""
      | JNull | JBool _ | JNum _ => True
      | JObj _ => False
      end
  | _ => True
  end.



(** The schema editor of the first render with category [cat] selected. *)
Definition editing (cat : string) : AppState :=
  setEditingSchemaCat (Some cat) (initialState "2024-01-01").

Definition topic : FieldSchema := Fld "topic" "主题" FText true.

(** A patch as the label input of the editor sends it. *)
Definition relabel (l : string) : FieldPatch :=
  {| p_key := None; p_label := Some l; p_type := None; p_required := None;
     p_options := None; p_unit := None; p_placeholder := None |}.

(** The state while the regeneration of the model message of [extracted] is
    in flight. *)
Definition regenerating : AppState :=
  setAbortControllerRef (Some 1%nat)
    (setControllers [false; false] (setIsProcessing true (stateOf extracted))).

(** The first message of [extracted] is edited to [dinner] and replayed. *)
Definition replaying : Replay :=
  {| r_view :=
       {| app := setIsProcessing true
                   (setAbortControllerRef (Some 1%nat)
                      (setControllers [false; false]
                         (setMessages [userSaid "dinner" noon] (stateOf extracted))));
          editingMsgIndex := None;
          editingMsgText := "dinner" |};
     r_controller := 1;
     r_history := [userSaid "dinner" noon];
     r_newMsg := "";
     r_regenerate := true |}.

(** * Properties *)

(** ** Taxonomy registry *)

Lemma createSchema_keys (specificFields : list FieldSchema) :
  f_key <$> createSchema specificFields
  = ["summary"; "time"; "duration"] ++ (f_key <$> specificFields) ++ ["notes"].
Proof. unfold createSchema. rewrite !fmap_app. reflexivity. Qed.

(** The schema built by [createSchema] holds the four standard fields. *)
Lemma createSchema_standard (specificFields : list FieldSchema) (k : string) :
  k ∈ standardFields → k ∈ (f_key <$> createSchema specificFields).
Proof.
  intros Hk. rewrite createSchema_keys. unfold standardFields in Hk.
  repeat (apply elem_of_cons in Hk as [->|Hk]).
  - by left.
  - right. by left.
  - do 2 right. by left.
  - rewrite !elem_of_app. do 2 right. by left.
  - by apply elem_of_nil in Hk.
Qed.

(** A new category gets exactly the four standard fields, and becomes the
    category under edit. *)
Lemma addCategory_seeds (groupId label rnd : string) (s : AppState) :
  nonempty label = true →
  let s' := addCategory groupId (Some label) rnd s in
  f_key <$> fieldsOf ("cat_" +:+ rnd) s' = standardFields
  ∧ categoryMeta s' !! ("cat_" +:+ rnd) = Some (Meta groupId "bg-gray-600" "Hash" label)
  ∧ editingSchemaCat s' = Some ("cat_" +:+ rnd).
Proof.
  intros Hl. unfold addCategory. rewrite Hl. cbn.
  unfold fieldsOf. cbn. rewrite !lookup_insert_eq. done.
Qed.

(** [removeField] refuses a standard field: an alert, nothing else changes. *)
Lemma removeField_standard (idx : nat) (confirmed : bool) (s : AppState)
    (cat : string) (f : FieldSchema) :
  editedCategory s = Some cat →
  fieldsOf cat s !! idx = Some f →
  f_key f ∈ standardFields →
  removeField idx confirmed s = Normal (alert "Cannot delete standard fields" s)
  ∧ customSchemas (alert "Cannot delete standard fields" s) = customSchemas s.
Proof.
  intros Hc Hf Hk. unfold removeField. rewrite Hc, Hf.
  assert (isStandard (f_key f) = true) as ->; [|done].
  unfold standardFields in Hk.
  repeat (apply elem_of_cons in Hk as [->|Hk]; [reflexivity|]).
  by apply elem_of_nil in Hk.
Qed.

(** [removeField] on any other field of the category under edit keeps the
    standard fields the category has. *)
Lemma removeField_keeps_standard (idx : nat) (confirmed : bool) (s s' : AppState)
    (cat k : string) :
  removeField idx confirmed s = Normal s' →
  k ∈ standardFields →
  k ∈ (f_key <$> fieldsOf cat s) →
  k ∈ (f_key <$> fieldsOf cat s').
Proof.
  unfold removeField. intros Hr Hk Hin.
  destruct (editedCategory s) as [c|]; [|by inversion Hr; subst].
  destruct (fieldsOf c s !! idx) as [f|] eqn:Hf; [|done].
  destruct (isStandard (f_key f)) eqn:Hstd; [by inversion Hr; subst|].
  destruct confirmed; [|by inversion Hr; subst].
  inversion Hr; subst; clear Hr. unfold fieldsOf in *. cbn.
  destruct (decide (c = cat)) as [->|Hne]; [|by rewrite lookup_insert_ne].
  rewrite lookup_insert_eq. cbn.
  apply list_elem_of_fmap in Hin as (g & -> & Hg).
  apply list_elem_of_lookup in Hg as [i Hi].
  apply list_elem_of_fmap. exists g. split; [done|].
  destruct (decide (i = idx)) as [->|Hi'].
  - rewrite Hf in Hi. inversion Hi; subst.
    unfold isStandard, standardFields in *. exfalso.
    repeat (apply elem_of_cons in Hk as [Hk|Hk];
            [rewrite Hk in Hstd; cbn in Hstd; discriminate|]).
    by apply elem_of_nil in Hk.
  - apply list_elem_of_lookup.
    destruct (decide (i < idx)%nat).
    + exists i. by rewrite list_lookup_delete_lt.
    + exists (pred i). rewrite list_lookup_delete_ge by lia.
      replace (S (pred i)) with i by lia. done.
Qed.

(** [addField] keeps every field key the category under edit, and every
    other category, already had. *)
Lemma addField_keeps_keys (rnd : string) (s : AppState) (cat k : string) :
  k ∈ (f_key <$> fieldsOf cat s) →
  k ∈ (f_key <$> fieldsOf cat (addField rnd s)).
Proof.
  intros Hin. unfold addField.
  destruct (editedCategory s) as [c|]; [|done].
  unfold fieldsOf in *. cbn.
  destruct (decide (c = cat)) as [->|Hne]; [|by rewrite lookup_insert_ne].
  rewrite lookup_insert_eq. cbn.
  set (l := default [] (customSchemas s !! cat)) in *.
  destruct (list_find _ l) as [[i g]|].
  - rewrite <- (take_drop i l) in Hin.
    rewrite fmap_app, elem_of_app in Hin.
    rewrite fmap_app, fmap_cons, elem_of_app, elem_of_cons. tauto.
  - rewrite fmap_app, elem_of_app. by left.
Qed.

(** C7, at the category where it fails. [INITIAL_CATEGORY_META] declares the
    category [other], [INITIAL_SCHEMAS] has no schema for it: from the first
    render its field list is empty and holds none of the four standard
    fields, and [addField] then gives it a schema made of the new field
    alone. *)
Theorem other_category_lacks_standard_fields (isoToday rnd : string) :
  let s := initialState isoToday in
  is_Some (categoryMeta s !! "other")
  ∧ customSchemas s !! "other" = None
  ∧ fieldsOf "other" s = []
  ∧ Forall (λ k, k ∉ (f_key <$> fieldsOf "other" s)) standardFields
  ∧ f_key <$> fieldsOf "other" (addField rnd (setEditingSchemaCat (Some "other") s))
    = ["field_" +:+ rnd].
Proof.
  cbn zeta.
  assert (Hnone : customSchemas (initialState isoToday) !! "other" = None)
    by (vm_compute; reflexivity).
  split; [by eexists; vm_compute|].
  split; [exact Hnone|].
  assert (Hnil : fieldsOf "other" (initialState isoToday) = [])
    by (unfold fieldsOf; by rewrite Hnone).
  split; [exact Hnil|].
  split.
  - rewrite Hnil. repeat constructor; apply not_elem_of_nil.
  - set (s' := setEditingSchemaCat (Some "other") (initialState isoToday)).
    assert (Hnil' : fieldsOf "other" s' = []) by exact Hnil.
    unfold addField.
    change (editedCategory s') with (Some "other").
    cbv beta iota zeta. rewrite Hnil'.
    change (list_find (λ f, f_key f = "notes") []) with (@None (nat * FieldSchema)).
    cbv beta iota. unfold fieldsOf.
    change (customSchemas (setCustomSchemas ?m s')) with m.
    rewrite lookup_insert_eq. reflexivity.
Qed.

(** C9. Deleting a core group, one whose id is an id of [INITIAL_GROUPS], is
    refused with the alert [Cannot delete core groups.]; the groups are what
    they were, whatever would have been answered to a confirmation. *)
Theorem deleteGroup_core_rejected (id : string) (confirmed : bool) (s : AppState) :
  id ∈ (g_id <$> INITIAL_GROUPS) →
  deleteGroup id confirmed s = alert "Cannot delete core groups." s
  ∧ groups (deleteGroup id confirmed s) = groups s
  ∧ alerts (deleteGroup id confirmed s) = alerts s ++ ["Cannot delete core groups."].
Proof.
  intros Hid.
  assert (Hcore : isCoreGroup id = true).
  { cbn in Hid. repeat (apply elem_of_cons in Hid as [->|Hid]; [reflexivity|]).
    by apply elem_of_nil in Hid. }
  unfold deleteGroup. rewrite Hcore. done.
Qed.

Lemma deleteGroup_core_rejected_witness :
  "life" ∈ (g_id <$> INITIAL_GROUPS)
  ∧ groups (deleteGroup "life" true (initialState "2024-01-01")) = INITIAL_GROUPS.
Proof.
  assert (H : "life" ∈ (g_id <$> INITIAL_GROUPS)) by (cbn; left).
  split; [exact H|].
  exact (proj1 (proj2 (deleteGroup_core_rejected "life" true
                         (initialState "2024-01-01") H))).
Defined.

(** A group that is not a core group is removed once the deletion is
    confirmed. *)
Lemma deleteGroup_other (id : string) (s : AppState) :
  id ∉ (g_id <$> INITIAL_GROUPS) →
  groups (deleteGroup id true s) = filter (λ g, g_id g ≠ id) (groups s).
Proof.
  intros Hid. unfold deleteGroup.
  assert (isCoreGroup id = false) as ->; [|done].
  cbn in Hid. rewrite !not_elem_of_cons in Hid. destruct Hid as (H1 & H2 & H3 & _).
  unfold isCoreGroup, INITIAL_GROUPS, Group. cbn [existsb g_id].
  assert (String.eqb "life" id = false) as -> by (apply String.eqb_neq; congruence).
  assert (String.eqb "body" id = false) as -> by (apply String.eqb_neq; congruence).
  assert (String.eqb "work" id = false) as -> by (apply String.eqb_neq; congruence).
  reflexivity.
Qed.

(** C10. A confirmed [deleteCategory] removes the row of [key] from the
    category metadata and nothing else of the data: the schema mapping, with
    the schema of [key], the entries, with those of category [key], the
    groups and the logs are what they were. Declined, it changes nothing. *)
Theorem deleteCategory_frame (key : string) (s : AppState) :
  let s' := deleteCategory key true s in
  categoryMeta s' = delete key (categoryMeta s)
  ∧ customSchemas s' = customSchemas s
  ∧ fieldsOf key s' = fieldsOf key s
  ∧ entries s' = entries s
  ∧ groups s' = groups s
  ∧ messages s' = messages s
  ∧ rawLogs s' = rawLogs s
  ∧ deleteCategory key false s = s.
Proof.
  cbn zeta. unfold deleteCategory, fieldsOf.
  case_bool_decide; cbn; done.
Qed.

(** The other rows of the category metadata are untouched. *)
Lemma deleteCategory_other (key k : string) (confirmed : bool) (s : AppState) :
  k ≠ key →
  categoryMeta (deleteCategory key confirmed s) !! k = categoryMeta s !! k.
Proof.
  intros Hne. unfold deleteCategory. destruct confirmed; [|done].
  case_bool_decide; cbn; by rewrite lookup_delete_ne.
Qed.

(** ** Context window selector *)

Lemma slice_sublist {A} (start : Z) (l : list A) : slice start l `sublist_of` l.
Proof. unfold slice. apply sublist_drop. Qed.

(** [l.slice(-n)] keeps the last [n] elements when [n] is positive. *)
Lemma slice_last_length {A} (n : Z) (l : list A) :
  0 < n → Z.of_nat (length (slice (- n) l)) = Z.min n (Z.of_nat (length l)).
Proof.
  intros Hn. unfold slice.
  assert ((- n <? 0) = true) as -> by lia.
  rewrite length_drop. lia.
Qed.

(** [l.slice(-0)] is [l.slice(0)]: the whole list. *)
Lemma slice_zero {A} (l : list A) : slice (- 0) l = l.
Proof. unfold slice. cbn. rewrite Z.min_l by lia. reflexivity. Qed.

Section Selector.

Context (rt : Runtime).

(** The selector returns a subsequence of the message log, in the order of
    the log. *)
Lemma getFilteredHistory_sublist (now : Z) (s : AppState) :
  getFilteredHistory rt now s `sublist_of` messages s.
Proof.
  unfold getFilteredHistory.
  set (users := filter _ (messages s)).
  assert (Hu : users `sublist_of` messages s) by apply sublist_filter.
  set (dated := match contextMode (chatSettings s) with
                | global => users | _ => _ end).
  assert (Hd : dated `sublist_of` users).
  { subst dated. destruct (contextMode (chatSettings s)); [done|..].
    - apply sublist_filter.
    - destruct (getRollingWeekRange rt now). apply sublist_filter.
    - apply sublist_filter. }
  destruct (_ <? 9999).
  - etrans; [apply slice_sublist|]. by etrans.
  - by etrans.
Qed.

(** The selector returns messages of the user only. *)
Lemma getFilteredHistory_user (now : Z) (s : AppState) (m : ChatMessage) :
  m ∈ getFilteredHistory rt now s → role m = user.
Proof.
  unfold getFilteredHistory.
  set (users := filter _ (messages s)).
  set (dated := match contextMode (chatSettings s) with
                | global => users | _ => _ end).
  assert (Hd : dated `sublist_of` users).
  { subst dated. destruct (contextMode (chatSettings s)); [done|..].
    - apply sublist_filter.
    - destruct (getRollingWeekRange rt now). apply sublist_filter.
    - apply sublist_filter. }
  intros Hm.
  assert (Hin : m ∈ users).
  { eapply elem_of_sublist; [|exact Hd].
    destruct (_ <? 9999); [|done].
    eapply elem_of_sublist; [exact Hm|apply slice_sublist]. }
  apply list_elem_of_filter in Hin as [Hrole _].
  by destruct (role m).
Qed.

(** With a positive depth below 9999 the selector returns at most that many
    messages. *)
Lemma getFilteredHistory_length (now : Z) (s : AppState) :
  0 < contextRounds (chatSettings s) < 9999 →
  Z.of_nat (length (getFilteredHistory rt now s)) ≤ contextRounds (chatSettings s).
Proof.
  intros [Hpos Hlt]. unfold getFilteredHistory.
  assert ((contextRounds (chatSettings s) <? 9999) = true) as -> by lia.
  rewrite slice_last_length by done. lia.
Qed.

(** With depth 0 the selector returns all the messages that pass the
    filters, as it does with depth 9999. *)
Lemma getFilteredHistory_depth_zero (now : Z) (s : AppState) (cs : ChatSettings) :
  chatSettings s = cs →
  contextRounds cs = 0 →
  getFilteredHistory rt now s
  = getFilteredHistory rt now
      (setChatSettings
         {| chatEnabled := chatEnabled cs; organizerEnabled := organizerEnabled cs;
            contextRounds := 9999; contextMode := contextMode cs;
            customStartDate := customStartDate cs;
            customEndDate := customEndDate cs |} s).
Proof.
  intros <- H0. unfold getFilteredHistory. cbn. rewrite H0. cbn.
  apply slice_zero.
Qed.

(** In custom mode, without a depth cap, a message is selected exactly when
    it is a message of the user whose time stamp lies in the closed interval
    from the time value of the start date to the time value of the end date
    plus one day, both ends included. *)
Lemma getFilteredHistory_custom (now : Z) (s : AppState) (m : ChatMessage)
    (start end_ : Z) :
  contextMode (chatSettings s) = custom →
  9999 ≤ contextRounds (chatSettings s) →
  Date_getTime rt (customStartDate (chatSettings s)) = Some start →
  Date_getTime rt (customEndDate (chatSettings s)) = Some end_ →
  m ∈ getFilteredHistory rt now s
  ↔ m ∈ messages s ∧ role m = user
    ∧ start ≤ timestamp m ∧ timestamp m ≤ end_ + 86400000.
Proof.
  intros Hmode Hr Hs He. unfold getFilteredHistory.
  rewrite Hmode, Hs, He. cbn.
  assert ((contextRounds (chatSettings s) <? 9999) = false) as -> by lia.
  rewrite !list_elem_of_filter.
  rewrite andb_True, !Is_true_true, Z.leb_le, Z.leb_le.
  split.
  - intros ((H1 & H2) & Hu & Hin). by destruct (role m).
  - intros (Hin & Hu & H1 & H2). rewrite Hu. done.
Qed.

End Selector.

(** C4, at the depth where the bound fails. The depth field accepts 0 and
    falls back to 0 on an empty input, and 0 is below 9999; the selector then
    takes [slice(-0)], which is the whole list: here two messages are
    returned under a depth of 0. *)
Theorem depth_zero_selects_everything :
  let s :=
    setChatSettings (settingsWith true true 0 global)
      (setMessages [userSaid "first" noon; userSaid "second" (noon + 1000)]
         (initialState "2024-01-01")) in
  contextRounds (chatSettings s) = 0
  ∧ getFilteredHistory reference_runtime (noon + 2000) s
    = [userSaid "first" noon; userSaid "second" (noon + 1000)]
  ∧ (length (getFilteredHistory reference_runtime (noon + 2000) s) = 2)%nat.
Proof. cbn zeta. split; [reflexivity|]. split; vm_compute; reflexivity. Qed.

(** C5, at the instant where the interval is not half open. With start and
    end date 2024-01-01 the window starts at 1704067200000 and the day after
    the end date starts at 1704153600000; a message stamped with exactly that
    instant is selected, the test on the upper end being [<=]. *)
Theorem custom_window_includes_next_midnight :
  let late := userSaid "late" 1704153600000 in
  let s :=
    setChatSettings (settingsWith true true 9999 custom)
      (setMessages [late] (initialState "2024-01-01")) in
  Date_getTime reference_runtime (customStartDate (chatSettings s)) = Some 1704067200000
  ∧ Date_getTime reference_runtime (customEndDate (chatSettings s)) = Some 1704067200000
  ∧ timestamp late = 1704067200000 + 86400000
  ∧ getFilteredHistory reference_runtime noon s = [late].
Proof. cbn zeta. repeat split; vm_compute; reflexivity. Qed.

(** ** Extraction *)

(** [organizeInput] never throws. It returns the empty array
    when the call is rejected, when the response has no text or an empty
    text, when the text does not parse, and when there is no API key; a text
    that parses is returned as the value it denotes, array or not. *)
Theorem organizeInput_never_throws (rt : Runtime) :
  (∀ reply, ∃ v, organizeInput rt reply = Normal v)
  ∧ (∀ e, organizeInput rt (Rejected e) = Normal (JArr []))
  ∧ organizeInput rt (Response None) = Normal (JArr [])
  ∧ (∀ txt, organizeInput rt (Response (Some (Malformed txt))) = Normal (JArr []))
  ∧ (∀ v, organizeInput rt (Response (Some (WellFormed v)))
          = Normal (if hasApiKey rt then v else JArr [])).
Proof.
  unfold organizeInput.
  split; [|repeat split; intros; destruct (hasApiKey rt); cbn; try done].
  - intros [e|[[txt|v]|]]; destruct (hasApiKey rt); cbn; eauto.
    destruct (nonempty txt); cbn; eauto.
  - by destruct (nonempty txt).
Qed.

(** An output that parses to something else than an array comes back as it
    is: the text [{}] as the empty object. *)
Lemma organizeInput_returns_non_array :
  organizeInput reference_runtime (Response (Some (WellFormed (JObj []))))
  = Normal (JObj [])
  ∧ organizeInput reference_runtime (Response (Some (WellFormed (JObj []))))
    ≠ Normal (JArr []).
Proof. split; [reflexivity|discriminate]. Qed.









(** A [null] candidate makes the mapping throw: the handler rejects, nothing
    is stored and the busy flag is left as it was. *)
Lemma null_candidate_rejects (rt : Runtime) (t : Turn) (today_ : string)
    (ids : nat -> string) (savedAt : Z) (items : list json) (s : AppState) :
  hasApiKey rt = true →
  resumeOrganizer rt t today_ ids savedAt
    (Response (Some (WellFormed (JArr (JNull :: items))))) s
  = Fail s "TypeError: Cannot read properties of null".
Proof.
  intros Hkey. unfold resumeOrganizer, organizeInput. rewrite Hkey. reflexivity.
Qed.

(** ** Chat session *)

(** While the busy flag is set, [handleSendMessage] returns at once: the
    state is the one it was called on (no user message, no raw log entry) and
    the handler does not reach an inference call. *)
Theorem submit_while_busy_rejected (rt : Runtime) (sentAt : Z) (logId : string)
    (now : Z) (s : AppState) :
  isProcessing s = true →
  handleSendMessage rt sentAt logId now s = Done s.
Proof.
  intros Hbusy. unfold handleSendMessage. rewrite Hbusy.
  by destruct (blank (inputText s)).
Qed.

Lemma submit_while_busy_rejected_witness :
  let busy :=
    setInputText "again"
      (stateOf (handleSendMessage reference_runtime noon "log1" noon (typed "hello"))) in
  isProcessing busy = true
  ∧ handleSendMessage reference_runtime (noon + 5) "log2" (noon + 5) busy = Done busy.
Proof.
  cbn zeta.
  assert (H : isProcessing
                (setInputText "again"
                   (stateOf (handleSendMessage reference_runtime noon "log1" noon
                               (typed "hello")))) = true) by reflexivity.
  split; [exact H|].
  exact (submit_while_busy_rejected reference_runtime (noon + 5) "log2" (noon + 5) _ H).
Defined.

(** An accepted submission appends the user message and one raw log entry
    and creates a fresh controller. *)
Lemma handleSendMessage_accepted (rt : Runtime) (sentAt : Z) (logId : string)
    (now : Z) (s : AppState) :
  blank (inputText s) = false →
  isProcessing s = false →
  let s1 := stateOf (handleSendMessage rt sentAt logId now s) in
  messages s1 = messages s ++ [userSaid (inputText s) sentAt]
  ∧ rawLogs s1 = rawLogs s ++ [{| l_id := logId; l_timestamp := sentAt;
                                 l_text := inputText s |}]
  ∧ entries s1 = entries s
  ∧ controllers s1 = controllers s ++ [false].
Proof.
  intros Hb Hp. unfold handleSendMessage, startOrganizer. rewrite Hb, Hp.
  destruct (chatEnabled (chatSettings s)); cbn; [done|].
  destruct (organizerEnabled (chatSettings s)); cbn; done.
Qed.

Lemma handleSendMessage_chat_turn (rt : Runtime) (sentAt : Z) (logId : string)
    (now : Z) (s s1 : AppState) (t : Turn) (h : list ChatMessage) (m : string) :
  handleSendMessage rt sentAt logId now s = Await s1 (AwaitChat t h m) →
  controller t = length (controllers s)
  ∧ controllers s1 = controllers s ++ [false]
  ∧ abortControllerRef s1 = Some (length (controllers s))
  ∧ h = getFilteredHistory rt now s.
Proof.
  unfold handleSendMessage, startOrganizer.
  destruct (blank (inputText s)); [done|].
  destruct (isProcessing s); [done|].
  destruct (chatEnabled (chatSettings s)).
  - intros H. inversion H; subst. done.
  - cbn [settings].
    destruct (organizerEnabled (chatSettings s)); intros H; discriminate H.
Qed.

(** A chat call that settles on an aborted signal appends nothing and clears
    the busy flag; the organizer is not started. *)
Lemma resumeChat_aborted (rt : Runtime) (t : Turn) (reply : Reply string)
    (repliedAt now : Z) (s : AppState) :
  aborted (controller t) s = true →
  resumeChat rt t reply repliedAt now s = Done (setIsProcessing false s).
Proof. intros Ha. unfold resumeChat. by rewrite Ha. Qed.

(** The stop control during the chat call of a turn: no model message, no
    entry, busy flag cleared, no extraction. *)
Lemma stop_during_chat (rt : Runtime) (sentAt : Z) (logId : string) (now : Z)
    (s s1 : AppState) (t : Turn) (h : list ChatMessage) (m : string)
    (reply : Reply string) (repliedAt now' : Z) :
  handleSendMessage rt sentAt logId now s = Await s1 (AwaitChat t h m) →
  ∃ s2, resumeChat rt t reply repliedAt now' (handleStop s1) = Done s2
        ∧ messages s2 = messages s1
        ∧ entries s2 = entries s1
        ∧ isProcessing s2 = false.
Proof.
  intros Hsend.
  destruct (handleSendMessage_chat_turn _ _ _ _ _ _ _ _ _ Hsend)
    as (Hc & Hcs & Href & _).
  assert (Ha : aborted (controller t) (handleStop s1) = true).
  { unfold handleStop. rewrite Href. unfold aborted, abort. cbn.
    rewrite Hcs, Hc, list_lookup_insert_eq; [done|].
    rewrite length_app. cbn. lia. }
  eexists. split; [by apply resumeChat_aborted|].
  unfold handleStop. rewrite Href. done.
Qed.

(** The extraction step reads neither the signal nor the busy flag: after
    the stop control it stores what it stores without it. *)
Lemma resumeOrganizer_ignores_stop (rt : Runtime) (t : Turn) (today_ : string)
    (ids : nat -> string) (savedAt : Z) (reply : Reply Text) (s : AppState) :
  let r := resumeOrganizer rt t today_ ids savedAt reply s in
  let r' := resumeOrganizer rt t today_ ids savedAt reply (handleStop s) in
  entries (stateOf r') = entries (stateOf r)
  ∧ messages (stateOf r') = messages (stateOf r).
Proof.
  cbn zeta. unfold resumeOrganizer, handleStop.
  destruct (abortControllerRef s); [|done].
  destruct (organizeInput rt reply) as [v|]; [|done].
  destruct (truthy v && lengthPositive rt v); [|done].
  destruct (mapEntries today_ ids v) as [es|]; [|done].
  destruct (savedText rt es); done.
Qed.

(** C1, at the turn where it fails. Default settings; the message is sent,
    the chat call answers, the extraction call is in flight when the stop
    control is used. The busy flag clears and the signal is aborted, yet when
    the extraction call settles its candidate is appended to the entry store
    and announced by a system message. *)
Theorem stop_does_not_cancel_extraction :
  let s3 := handleStop (stateOf answered) in
  let r4 := resumeOrganizer reference_runtime turn0 "2024-01-01" sampleIds (noon + 2)
              (Response (Some (WellFormed (JArr [candidate "dining" "lunch"])))) s3 in
  suspendedOf sent = Some (AwaitChat turn0 [] "lunch then a film")
  ∧ suspendedOf answered
    = Some (AwaitOrganizer turn0 "lunch then a film" "2024-01-01")
  ∧ isProcessing (stateOf answered) = true
  ∧ isProcessing s3 = false
  ∧ aborted (controller turn0) s3 = true
  ∧ entries s3 = []
  ∧ entries (stateOf r4)
    = [ {| e_id := "id0"; e_date := JStr "2024-01-01";
           e_category := Some (JStr "dining"); e_event := Some (JStr "lunch");
           e_details := JObj [("summary", JStr "lunch"); ("time", JStr "12:00")];
           e_image := None |} ]
  ∧ messages (stateOf r4)
    = messages s3
      ++ [ {| role := system; text := "Saved: [2024-01-01] lunch";
              timestamp := noon + 2; relatedEntryIds := Some ["id0"] |} ].
Proof. cbn zeta. repeat split; vm_compute; reflexivity. Qed.

(** C6, at the outputs where it fails. The extraction call of [turn0] is in
    flight and its response text parses, to the string [abc] or to an object
    with a positive [length]. [organizeInput] returns that value, which is no
    sequence; [handleSendMessage] takes it for a non-empty array and calls
    [map] on it: the handler rejects with the busy flag left set, and the
    next submission is ignored. *)
Theorem non_array_output_breaks_turn :
  let s := stateOf answered in
  let abc := Response (Some (WellFormed (JStr "abc"))) in
  let len := Response (Some (WellFormed (JObj [("length", JNum 5)]))) in
  suspendedOf answered = Some (AwaitOrganizer turn0 "lunch then a film" "2024-01-01")
  ∧ organizeInput reference_runtime abc = Normal (JStr "abc")
  ∧ organizeInput reference_runtime len = Normal (JObj [("length", JNum 5)])
  ∧ resumeOrganizer reference_runtime turn0 "2024-01-01" sampleIds (noon + 2) abc s
    = Fail s "TypeError: structuredData.map is not a function"
  ∧ resumeOrganizer reference_runtime turn0 "2024-01-01" sampleIds (noon + 2) len s
    = Fail s "TypeError: structuredData.map is not a function"
  ∧ isProcessing s = true
  ∧ handleSendMessage reference_runtime (noon + 9) "log2" (noon + 9)
      (setInputText "again" s)
    = Done (setInputText "again" s).
Proof.
  cbn zeta. do 6 (split; [vm_compute; reflexivity|]). vm_compute. reflexivity.
Qed.

(** C8, at the turns where it fails. The extraction call of [turn0] is in
    flight. First the stop control is used: the busy flag clears although the
    turn has not ended, and a second submission is accepted, with its user
    message, its raw log entry and its chat call; when the extraction of the
    first turn settles after that, it stores its entry and clears the busy
    flag and the controller reference of the second turn. Second, without
    the stop control, a model message is regenerated: the regeneration has
    no busy guard and clears the flag when it ends, and a second submission
    is accepted as well. *)
Theorem second_submission_while_turn_in_flight :
  let s := stateOf answered in
  let again := userSaid "again" (noon + 5) in
  let turn1 c := {| controller := c; userMsg := again;
                    settings := settingsWith true true 10 global |} in
  let log2 := {| l_id := "log2"; l_timestamp := noon + 5; l_text := "again" |} in
  let stopped := handleStop s in
  let second :=
    handleSendMessage reference_runtime (noon + 5) "log2" (noon + 5)
      (setInputText "again" stopped) in
  let first :=
    resumeOrganizer reference_runtime turn0 "2024-01-01" sampleIds (noon + 6)
      (Response (Some (WellFormed (JArr [candidate "dining" "lunch"]))))
      (stateOf second) in
  let inFlight :=
    setAbortControllerRef (Some 1%nat)
      (setControllers [false; false] (setIsProcessing true s)) in
  let regenerated :=
    setIsProcessing false
      (setMessages
         (<[1%nat := {| role := model; text := "Bon appetit!"; timestamp := noon + 1;
                        relatedEntryIds := None |}]> (messages inFlight))
         inFlight) in
  suspendedOf answered = Some (AwaitOrganizer turn0 "lunch then a film" "2024-01-01")
  ∧ isProcessing s = true
  ∧ isProcessing stopped = false
  ∧ suspendedOf second
    = Some (AwaitChat (turn1 1%nat) [userSaid "lunch then a film" noon] "again")
  ∧ messages (stateOf second) = messages s ++ [again]
  ∧ rawLogs (stateOf second) = rawLogs s ++ [log2]
  ∧ isProcessing (stateOf second) = true
  ∧ length (entries (stateOf first)) = 1%nat
  ∧ isProcessing (stateOf first) = false
  ∧ abortControllerRef (stateOf first) = None
  ∧ handleRegenerateChat reference_runtime 1 (noon + 3) s
    = RegenAwait inFlight 1 [userSaid "lunch then a film" noon]
        "lunch then a film" true
  ∧ resumeRegenerate reference_runtime 1 1 (Response (Some "Bon appetit!")) inFlight
    = Some regenerated
  ∧ isProcessing regenerated = false
  ∧ suspendedOf (handleSendMessage reference_runtime (noon + 5) "log2" (noon + 5)
                   (setInputText "again" regenerated))
    = Some (AwaitChat (turn1 2%nat) [userSaid "lunch then a film" noon] "again").
Proof.
  cbn zeta. do 13 (split; [vm_compute; reflexivity|]). vm_compute. reflexivity.
Qed.

(** ** Undo *)

Lemma prefix_append (p s x : string) :
  String.prefix p s = true → String.prefix p (s +:+ x) = true.
Proof.
  revert s. induction p as [|a p IH]; intros s.
  - intros _. by destruct (s +:+ x).
  - destruct s as [|b s]; [done|].
    change (String b s +:+ x) with (String b (s +:+ x)). simpl.
    destruct (ascii_dec a b); [apply IH|done].
Qed.

Lemma includes_unfold (s sub : string) :
  includes s sub
  = if String.prefix sub s then true
    else match s with
         | EmptyString => false
         | String _ r => includes r sub
         end.
Proof. by destruct s. Qed.

(** A text that contains the mark still contains it after an append. *)
Lemma includes_append (s sub x : string) :
  includes s sub = true → includes (s +:+ x) sub = true.
Proof.
  induction s as [|a s IH]; rewrite includes_unfold.
  - destruct (String.prefix sub "") eqn:Hp; [|done].
    intros _. rewrite includes_unfold.
    by rewrite (prefix_append _ _ x Hp).
  - destruct (String.prefix sub (String a s)) eqn:Hp; intros Hs.
    + rewrite includes_unfold. by rewrite (prefix_append _ _ x Hp).
    + change (String a s +:+ x) with (String a (s +:+ x)).
      rewrite includes_unfold, (IH Hs).
      by destruct (String.prefix sub (String a (s +:+ x))).
Qed.

Lemma includes_suffix (s sub : string) : includes (s +:+ sub) sub = true.
Proof.
  assert (Hp : String.prefix sub sub = true).
  { induction sub as [|b r IHr]; cbn; [done|].
    by destruct (ascii_dec b b). }
  induction s as [|a s IH].
  - change ("" +:+ sub) with sub. by rewrite includes_unfold, Hp.
  - change (String a s +:+ sub) with (String a (s +:+ sub)).
    rewrite includes_unfold, IH.
    by destruct (String.prefix sub (String a (s +:+ sub))).
Qed.

Lemma append_assoc (a b c : string) : (a +:+ b) +:+ c = a +:+ (b +:+ c).
Proof.
  induction a as [|x a IH]; [done|].
  change (String x ((a +:+ b) +:+ c) = String x (a +:+ (b +:+ c))).
  by rewrite IH.
Qed.

(** The text [handleUndo] writes contains the mark the control looks for. *)
Lemma revoked_is_marked (t : string) : includes (t +:+ " (Revoked)") "(Revoked)" = true.
Proof.
  replace (t +:+ " (Revoked)") with ((t +:+ " ") +:+ "(Revoked)")
    by apply append_assoc.
  apply includes_suffix.
Qed.

(** The mark is one-way: a marked message stays marked when revoked again. *)
Lemma revoke_keeps_mark (m : ChatMessage) :
  includes (text m) "(Revoked)" = true →
  includes (text (revoke m)) "(Revoked)" = true.
Proof. apply includes_append. Qed.

Lemma handleUndo_entries (msgIndex : nat) (entryIds : list string) (s : AppState) :
  entries (handleUndo msgIndex entryIds s)
  = filter (λ e, e_id e ∉ entryIds) (entries s).
Proof. reflexivity. Qed.

Lemma handleUndo_message (msgIndex : nat) (entryIds : list string) (s : AppState)
    (i : nat) :
  messages (handleUndo msgIndex entryIds s) !! i
  = (if (i =? msgIndex)%nat then revoke else id) <$> messages s !! i.
Proof.
  unfold handleUndo. cbn. rewrite list_lookup_imap.
  destruct (messages s !! i); cbn; [|done].
  by destruct (i =? msgIndex)%nat.
Qed.

(** Every entry named in [entryIds] is gone from the store, the others stay. *)
Lemma handleUndo_deletes (msgIndex : nat) (entryIds : list string) (s : AppState)
    (e : Entry) :
  e ∈ entries (handleUndo msgIndex entryIds s)
  ↔ e ∈ entries s ∧ e_id e ∉ entryIds.
Proof. rewrite handleUndo_entries, list_elem_of_filter. tauto. Qed.

(** The control of a message revokes at most once. *)
Lemma clickRevoke_idempotent (m : nat) (s : AppState) :
  clickRevoke m (clickRevoke m s) = clickRevoke m s.
Proof.
  unfold clickRevoke at 2.
  destruct (messages s !! m) as [msg|] eqn:Hm; [|unfold clickRevoke; by rewrite Hm].
  destruct (role msg) eqn:Hr; try (unfold clickRevoke; by rewrite Hm, Hr).
  destruct (relatedEntryIds msg) as [rel|] eqn:Hrel;
    [|unfold clickRevoke; by rewrite Hm, Hr, Hrel].
  destruct (includes (text msg) "(Revoked)") eqn:Hinc;
    [unfold clickRevoke; by rewrite Hm, Hr, Hrel, Hinc|].
  unfold clickRevoke.
  rewrite handleUndo_message, Nat.eqb_refl, Hm. cbn.
  by rewrite Hr, Hrel, revoked_is_marked, Hinc.
Qed.

(** C3, amended. Calling [handleUndo] twice leaves the entry store as one
    call leaves it. The message at [m] is marked by appending [ (Revoked)] to
    its text: a second call appends the mark once more, and the message is
    recognised as revoked after one call and after two. Through the control
    of the message, which offers the action only while the text does not
    contain the mark, a second revoke changes nothing at all. *)
Theorem handleUndo_twice (m : nat) (ids : list string) (s : AppState) :
  let s1 := handleUndo m ids s in
  let s2 := handleUndo m ids s1 in
  entries s2 = entries s1
  ∧ text <$> messages s2 !! m
    = (λ t, t +:+ " (Revoked)") <$> (text <$> messages s1 !! m)
  ∧ (λ msg, includes (text msg) "(Revoked)") <$> messages s1 !! m
    = (λ _, true) <$> messages s !! m
  ∧ (λ msg, includes (text msg) "(Revoked)") <$> messages s2 !! m
    = (λ _, true) <$> messages s !! m
  ∧ clickRevoke m (clickRevoke m s) = clickRevoke m s.
Proof.
  cbn zeta. repeat split.
  - rewrite !handleUndo_entries. by apply list_filter_filter_l.
  - rewrite !handleUndo_message, Nat.eqb_refl.
    by destruct (messages s !! m).
  - rewrite handleUndo_message, Nat.eqb_refl.
    destruct (messages s !! m); cbn; [|done].
    by rewrite revoked_is_marked.
  - rewrite !handleUndo_message, Nat.eqb_refl.
    destruct (messages s !! m); cbn; [|done].
    by rewrite revoked_is_marked.
  - apply clickRevoke_idempotent.
Qed.

(** C3 as stated fails on the message: the second call is not a no-op, it
    appends the mark a second time. *)
Lemma handleUndo_twice_differs :
  let saved :=
    {| role := system; text := "Saved: [2024-01-01] lunch"; timestamp := noon;
       relatedEntryIds := Some ["id0"] |} in
  let s := setMessages [saved] (typed "") in
  text <$> messages (handleUndo 0 ["id0"] s) !! 0%nat
  = Some "Saved: [2024-01-01] lunch (Revoked)"
  ∧ text <$> messages (handleUndo 0 ["id0"] (handleUndo 0 ["id0"] s)) !! 0%nat
    = Some "Saved: [2024-01-01] lunch (Revoked) (Revoked)"
  ∧ handleUndo 0 ["id0"] (handleUndo 0 ["id0"] s) ≠ handleUndo 0 ["id0"] s.
Proof.
  cbn zeta. split; [reflexivity|]. split; [reflexivity|].
  intros H. apply (f_equal messages) in H. vm_compute in H. discriminate H.
Qed.

(** ** Scenarios of the specification, evaluated *)

(** Scenario A: in mode [today] without a depth cap, of a message of
    yesterday and one of today only the latter is selected. *)
Example scenario_today :
  let s :=
    setChatSettings (settingsWith true true 9999 today)
      (setMessages [userSaid "yesterday" (noon - msPerDay); userSaid "today" noon]
         (initialState "2024-01-01")) in
  getFilteredHistory reference_runtime (noon + 3600000) s = [userSaid "today" noon].
Proof. vm_compute. reflexivity. Qed.

(** The rolling week of 2024-01-01T12:00Z in UTC runs from midnight of that
    day to the last millisecond of 2024-01-07. *)
Example rolling_week :
  getRollingWeekRange reference_runtime noon = (1704067200000, 1704671999999)
  ∧ formatDate reference_runtime noon = "2024-01-01"
  ∧ formatDate reference_runtime 1704671999999 = "2024-01-07".
Proof. repeat split; vm_compute; reflexivity. Qed.

(** Scenario D: the stop control during the chat call of a turn. *)
Example scenario_stop_during_chat :
  let r1 := handleSendMessage reference_runtime noon "log1" noon (typed "hello") in
  let r2 := resumeChat reference_runtime turn0 (Rejected "Aborted") (noon + 1)
              (noon + 1) (handleStop (stateOf r1)) in
  suspendedOf r2 = None
  ∧ messages (stateOf r2) = [userSaid "hello" noon]
  ∧ entries (stateOf r2) = []
  ∧ isProcessing (stateOf r2) = false.
Proof. cbn zeta. repeat split; vm_compute; reflexivity. Qed.

(** Scenario E: revoking a system message with two related entries removes
    both entries and marks the message; the control then offers nothing. *)
Example scenario_revoke :
  let entry id :=
    {| e_id := id; e_date := JStr "2024-01-01"; e_category := Some (JStr "dining");
       e_event := Some (JStr "lunch"); e_details := JObj []; e_image := None |} in
  let saved :=
    {| role := system; text := "Saved: [2024-01-01] lunch, [2024-01-01] lunch";
       timestamp := noon; relatedEntryIds := Some ["id0"; "id1"] |} in
  let s := setEntries [entry "id0"; entry "kept"; entry "id1"]
             (setMessages [saved] (typed "")) in
  entries (clickRevoke 0 s) = [entry "kept"]
  ∧ messages (clickRevoke 0 s) = [revoke saved]
  ∧ clickRevoke 0 (clickRevoke 0 s) = clickRevoke 0 s.
Proof.
  cbn zeta. split; [vm_compute; reflexivity|]. split; [vm_compute; reflexivity|].
  apply clickRevoke_idempotent.
Qed.

(** * Properties of the further handlers *)

(** ** Schema editor *)

Lemma setCustomSchemas_same (s : AppState) : setCustomSchemas (customSchemas s) s = s.
Proof. by destruct s. Qed.

Lemma setGroups_same (s : AppState) : setGroups (groups s) s = s.
Proof. by destruct s. Qed.

Lemma new_field_not_standard (rnd : string) : isStandard ("field_" +:+ rnd) = false.
Proof. reflexivity. Qed.

Lemma find_notes (specific : list FieldSchema) :
  Forall (λ f, f_key f ≠ "notes") specific →
  list_find (λ f, f_key f = "notes") (createSchema specific)
  = Some ((3 + length specific)%nat,
          FldP "notes" "详情" FText true "原始信息全部内容原封不动的填写在这里").
Proof.
  intros Hs. apply list_find_Some.
  set (notes := FldP "notes" _ _ _ _).
  assert (Hl : ∀ j, createSchema specific !! S (S (S j)) = (specific ++ [notes]) !! j)
    by reflexivity.
  split; [|split].
  - change (3 + length specific)%nat with (S (S (S (length specific)))).
    rewrite Hl, lookup_app_r by lia. by rewrite Nat.sub_diag.
  - reflexivity.
  - intros j y Hj Hlt.
    destruct j as [|[|[|j]]];
      try (inversion Hj; subst; cbn; congruence).
    rewrite Hl in Hj.
    assert (j < length specific)%nat by (cbn in Hlt; lia).
    rewrite lookup_app_l in Hj by done.
    eapply Forall_lookup_1 in Hs; [exact Hs|exact Hj].
Qed.

Lemma addField_createSchema (rnd : string) (s : AppState) (cat : string)
    (specific : list FieldSchema) :
  editedCategory s = Some cat →
  customSchemas s !! cat = Some (createSchema specific) →
  Forall (λ f, f_key f ≠ "notes") specific →
  fieldsOf cat (addField rnd s)
  = createSchema (specific ++ [Fld ("field_" +:+ rnd) "New Field" FText false]).
Proof.
  intros Hc Hm Hs.
  assert (Hf : fieldsOf cat s = createSchema specific)
    by (unfold fieldsOf; by rewrite Hm).
  unfold addField. rewrite Hc. cbv zeta.
  rewrite Hf, (find_notes specific Hs).
  unfold fieldsOf.
  change (customSchemas (setCustomSchemas ?m s)) with m.
  rewrite lookup_insert_eq. cbn [default].
  unfold createSchema, id.
  set (pre := [FldP "summary" _ _ _ _; _; _]).
  rewrite (app_assoc pre specific).
  replace (3 + length specific)%nat with (length (pre ++ specific))
    by (by rewrite length_app).
  rewrite take_app_length, drop_app_length.
  by rewrite <- !app_assoc.
Qed.

(** [addField] puts the new field right before [notes]: on a schema built by
    [createSchema] from fields none of which is keyed [notes], the result is
    the schema [createSchema] builds from those fields followed by the new
    one. *)
Theorem addField_keeps_shape (rnd : string) (s : AppState) (cat : string)
    (specific : list FieldSchema) :
  editedCategory s = Some cat →
  customSchemas s !! cat = Some (createSchema specific) →
  Forall (λ f, f_key f ≠ "notes") specific →
  fieldsOf cat (addField rnd s)
  = createSchema (specific ++ [Fld ("field_" +:+ rnd) "New Field" FText false]).
Proof. apply addField_createSchema. Qed.

Lemma addField_keeps_shape_witness :
  editedCategory (editing "idea") = Some "idea"
  ∧ customSchemas (editing "idea") !! "idea" = Some (createSchema [topic])
  ∧ Forall (λ f, f_key f ≠ "notes") [topic]
  ∧ fieldsOf "idea" (addField "q1w2e3" (editing "idea"))
    = createSchema ([topic] ++ [Fld ("field_" +:+ "q1w2e3") "New Field" FText false]).
Proof.
  assert (H1 : editedCategory (editing "idea") = Some "idea") by reflexivity.
  assert (H2 : customSchemas (editing "idea") !! "idea" = Some (createSchema [topic]))
    by (vm_compute; reflexivity).
  assert (H3 : Forall (λ f, f_key f ≠ "notes") [topic])
    by (repeat constructor; discriminate).
  split; [exact H1|]. split; [exact H2|]. split; [exact H3|].
  exact (addField_keeps_shape "q1w2e3" (editing "idea") "idea" [topic] H1 H2 H3).
Defined.

(** A field added by [addField] can be removed again: removing, confirmed,
    the field at the place where it was inserted gives back the state before
    the addition. *)
Theorem addField_removeField (rnd : string) (s : AppState) (cat : string)
    (specific : list FieldSchema) :
  editedCategory s = Some cat →
  customSchemas s !! cat = Some (createSchema specific) →
  Forall (λ f, f_key f ≠ "notes") specific →
  removeField (3 + length specific) true (addField rnd s) = Normal s.
Proof.
  intros Hc Hm Hs.
  pose proof (addField_createSchema rnd s cat specific Hc Hm Hs) as Hshape.
  assert (Hc' : editedCategory (addField rnd s) = Some cat).
  { unfold addField. rewrite Hc. exact Hc. }
  unfold removeField. rewrite Hc'. cbv zeta. rewrite Hshape.
  set (newField := Fld _ _ _ _).
  set (pre := [FldP "summary" "简述" FText true "10字以内具体的事件描述";
               FldP "time" "时间" FText true "HH:mm";
               FldP "duration" "时长" FText false "例如: 30分钟"]).
  set (notes := FldP "notes" "详情" FText true "原始信息全部内容原封不动的填写在这里").
  assert (Hl : createSchema (specific ++ [newField])
               = (pre ++ specific) ++ newField :: [notes]).
  { unfold createSchema. by rewrite <- !app_assoc. }
  rewrite Hl.
  replace (3 + length specific)%nat with (length (pre ++ specific))
    by (by rewrite length_app).
  rewrite list_lookup_middle by done.
  change (isStandard (f_key newField)) with (isStandard ("field_" +:+ rnd)).
  rewrite new_field_not_standard.
  rewrite delete_middle.
  unfold addField. rewrite Hc.
  change (customSchemas (setCustomSchemas ?m s)) with m.
  rewrite insert_insert_eq.
  replace ((pre ++ specific) ++ [notes]) with (createSchema specific)
    by (unfold createSchema; by rewrite <- !app_assoc).
  rewrite (insert_id _ _ _ Hm).
  f_equal. by destruct s.
Qed.

Lemma addField_removeField_witness :
  editedCategory (editing "idea") = Some "idea"
  ∧ customSchemas (editing "idea") !! "idea" = Some (createSchema [topic])
  ∧ Forall (λ f, f_key f ≠ "notes") [topic]
  ∧ removeField (3 + length [topic]) true (addField "q1w2e3" (editing "idea"))
    = Normal (editing "idea").
Proof.
  assert (H1 : editedCategory (editing "idea") = Some "idea") by reflexivity.
  assert (H2 : customSchemas (editing "idea") !! "idea" = Some (createSchema [topic]))
    by (vm_compute; reflexivity).
  assert (H3 : Forall (λ f, f_key f ≠ "notes") [topic])
    by (repeat constructor; discriminate).
  split; [exact H1|]. split; [exact H2|]. split; [exact H3|].
  exact (addField_removeField "q1w2e3" (editing "idea") "idea" [topic] H1 H2 H3).
Defined.

Lemma patchField_key (f : FieldSchema) (changes : FieldPatch) :
  p_key changes = None → f_key (patchField f changes) = f_key f.
Proof. intros H. unfold patchField. cbn. by rewrite H. Qed.

Lemma updateField_keys (key : string) (idx : nat) (changes : FieldPatch)
    (s s' : AppState) (cat : string) :
  p_key changes = None →
  updateField key idx changes s = Some s' →
  f_key <$> fieldsOf cat s' = f_key <$> fieldsOf cat s.
Proof.
  intros Hk. unfold updateField.
  destruct (editedCategory s) as [c|]; [|by intros [= <-]].
  destruct (fieldsOf c s !! idx) as [f|] eqn:Hf; [|done].
  intros [= <-]. unfold fieldsOf in *. cbn.
  destruct (decide (c = cat)) as [->|Hne]; [|by rewrite lookup_insert_ne].
  rewrite lookup_insert_eq. cbn.
  rewrite list_fmap_insert, patchField_key by done.
  apply list_insert_id. by rewrite list_lookup_fmap, Hf.
Qed.

Lemma moveGroup_Some (idx : nat) (dir : Dir) (s s' : AppState) :
  moveGroup idx dir s = Some s' →
  s' = s
  ∨ ∃ a b, groups s !! idx = Some a ∧ groups s !! neighbour idx dir = Some b
           ∧ s' = setGroups (<[neighbour idx dir := a]> (<[idx := b]> (groups s))) s.
Proof.
  unfold moveGroup. destruct (_ || _); [intros [= <-]; by left|].
  destruct (groups s !! idx) as [a|] eqn:Ha; [|done].
  destruct (groups s !! neighbour idx dir) as [b|] eqn:Hb; [|done].
  intros [= <-]. right. eauto.
Qed.

(** [moveGroup] only reorders: the groups after a move are a permutation of
    the groups before, and nothing else of the state changes. *)
Theorem moveGroup_permutes (idx : nat) (dir : Dir) (s s' : AppState) :
  moveGroup idx dir s = Some s' →
  groups s' ≡ₚ groups s ∧ setGroups (groups s) s' = s.
Proof.
  intros H. apply moveGroup_Some in H as [->|(a & b & Ha & Hb & ->)].
  - split; [done|apply setGroups_same].
  - split; [by apply Permutation_insert_swap|by destruct s].
Qed.

Lemma moveGroup_permutes_witness :
  moveGroup 0 Down (initialState "2024-01-01")
  = Some (setGroups [Group "body" "身体"; Group "life" "日常"; Group "work" "工作"]
            (initialState "2024-01-01"))
  ∧ groups (setGroups [Group "body" "身体"; Group "life" "日常"; Group "work" "工作"]
              (initialState "2024-01-01"))
    ≡ₚ groups (initialState "2024-01-01").
Proof.
  assert (H : moveGroup 0 Down (initialState "2024-01-01")
              = Some (setGroups [Group "body" "身体"; Group "life" "日常";
                                 Group "work" "工作"]
                        (initialState "2024-01-01"))) by reflexivity.
  split; [exact H|].
  exact (proj1 (moveGroup_permutes 0 Down _ _ H)).
Defined.

(** Moving the first group up, or the last group down, changes nothing. *)
Theorem moveGroup_at_the_ends (s : AppState) :
  groups s ≠ [] →
  moveGroup 0 Up s = Some s
  ∧ moveGroup (pred (length (groups s))) Down s = Some s.
Proof.
  intros Hne. split; [reflexivity|].
  unfold moveGroup. destruct (groups s) as [|g l] eqn:Hg; [done|].
  assert ((Z.of_nat (pred (length (g :: l))) =? Z.of_nat (length (g :: l)) - 1) = true)
    as -> by (apply Z.eqb_eq; cbn [length]; lia).
  cbn [isUp negb andb]. by rewrite orb_true_r.
Qed.

Lemma moveGroup_at_the_ends_witness :
  groups (initialState "2024-01-01") ≠ []
  ∧ moveGroup 0 Up (initialState "2024-01-01") = Some (initialState "2024-01-01")
  ∧ moveGroup (pred (length (groups (initialState "2024-01-01")))) Down
      (initialState "2024-01-01")
    = Some (initialState "2024-01-01").
Proof.
  assert (H : groups (initialState "2024-01-01") ≠ []) by discriminate.
  split; [exact H|].
  exact (moveGroup_at_the_ends (initialState "2024-01-01") H).
Defined.

(** Moving a group down and then moving it up from its new place gives back
    the state before the two moves. *)
Theorem moveGroup_down_up (idx : nat) (s s' : AppState) :
  (S idx < length (groups s))%nat →
  moveGroup idx Down s = Some s' →
  moveGroup (S idx) Up s' = Some s.
Proof.
  intros Hlt. unfold moveGroup at 1.
  assert ((Z.of_nat idx =? Z.of_nat (length (groups s)) - 1) = false) as -> by lia.
  cbn [isUp negb andb orb neighbour]. rewrite andb_false_r. cbn [orb].
  destruct (lookup_lt_is_Some_2 (groups s) idx ltac:(lia)) as [a Ha].
  destruct (lookup_lt_is_Some_2 (groups s) (S idx) Hlt) as [b Hb].
  rewrite Ha, Hb. intros [= <-].
  unfold moveGroup. cbn [isUp negb andb orb neighbour pred Nat.eqb].
  rewrite andb_false_r. cbn [orb groups setGroups].
  rewrite list_lookup_insert_eq by (rewrite length_insert; lia).
  rewrite list_lookup_insert_ne by lia.
  rewrite list_lookup_insert_eq by lia.
  f_equal.
  rewrite list_insert_insert_eq.
  rewrite (list_insert_insert_ne _ (S idx) idx) by lia.
  rewrite list_insert_insert_eq.
  rewrite (list_insert_id _ _ _ Hb), (list_insert_id _ _ _ Ha).
  by destruct s.
Qed.

Lemma moveGroup_down_up_witness :
  (1 < length (groups (initialState "2024-01-01")))%nat
  ∧ moveGroup 1 Up
      (setGroups [Group "body" "身体"; Group "life" "日常"; Group "work" "工作"]
         (initialState "2024-01-01"))
    = Some (initialState "2024-01-01").
Proof.
  assert (H1 : (1 < length (groups (initialState "2024-01-01")))%nat) by (cbn; lia).
  assert (H2 : moveGroup 0 Down (initialState "2024-01-01")
               = Some (setGroups [Group "body" "身体"; Group "life" "日常";
                                  Group "work" "工作"]
                         (initialState "2024-01-01"))) by reflexivity.
  split; [exact H1|].
  exact (moveGroup_down_up 0 _ _ H1 H2).
Defined.

(** A group added by [addGroup] under an id no group has, and which is no
    core id, is removed again by a confirmed [deleteGroup]: the state is the
    one before the addition. *)
Theorem addGroup_deleteGroup (label id : string) (s : AppState) :
  nonempty label = true →
  isCoreGroup id = false →
  id ∉ (g_id <$> groups s) →
  deleteGroup id true (addGroup (Some label) id s) = s.
Proof.
  intros Hl Hcore Hfresh. unfold addGroup, deleteGroup. rewrite Hl, Hcore.
  cbn [groups setGroups]. rewrite filter_app.
  assert (Hkeep : filter (λ g, g_id g ≠ id) (groups s) = groups s).
  { clear -Hfresh. induction (groups s) as [|g l IH]; [done|].
    rewrite fmap_cons, not_elem_of_cons in Hfresh. destruct Hfresh as [Hg Hl].
    rewrite filter_cons_True by done. by rewrite IH. }
  rewrite Hkeep.
  rewrite filter_cons_False by (cbn; tauto).
  rewrite filter_nil, app_nil_r. by destruct s.
Qed.

Lemma addGroup_deleteGroup_witness :
  nonempty "Travel" = true
  ∧ isCoreGroup "k3x9ab" = false
  ∧ ("k3x9ab" ∉ (g_id <$> groups (initialState "2024-01-01")))
  ∧ deleteGroup "k3x9ab" true (addGroup (Some "Travel") "k3x9ab" (initialState "2024-01-01"))
    = initialState "2024-01-01".
Proof.
  assert (H1 : nonempty "Travel" = true) by reflexivity.
  assert (H2 : isCoreGroup "k3x9ab" = false) by reflexivity.
  assert (H3 : "k3x9ab" ∉ (g_id <$> groups (initialState "2024-01-01"))).
  { cbn. rewrite !not_elem_of_cons. repeat split; try discriminate.
    apply not_elem_of_nil. }
  split; [exact H1|]. split; [exact H2|]. split; [exact H3|].
  exact (addGroup_deleteGroup "Travel" "k3x9ab" (initialState "2024-01-01") H1 H2 H3).
Defined.

(** Deleting a category that was just added gives back the category
    metadata but not the schemas: the schema seeded for the new key stays in
    the schema mapping. *)
Theorem addCategory_deleteCategory (groupId label rnd : string) (s : AppState) :
  nonempty label = true →
  categoryMeta s !! ("cat_" +:+ rnd) = None →
  let s' := deleteCategory ("cat_" +:+ rnd) true
              (addCategory groupId (Some label) rnd s) in
  categoryMeta s' = categoryMeta s
  ∧ customSchemas s' = (<["cat_" +:+ rnd := createSchema []]> (customSchemas s))
  ∧ editingSchemaCat s' = None.
Proof.
  intros Hl Hfresh. cbn zeta. unfold addCategory, deleteCategory. rewrite Hl.
  cbn [editingSchemaCat setEditingSchemaCat setCustomSchemas setCategoryMeta].
  rewrite bool_decide_eq_true_2 by done.
  cbn. rewrite delete_insert_eq, delete_id by done. done.
Qed.

Lemma addCategory_deleteCategory_witness :
  nonempty "Travel" = true
  ∧ categoryMeta (initialState "2024-01-01") !! ("cat_" +:+ "a1b2c3d4") = None
  ∧ customSchemas
      (deleteCategory ("cat_" +:+ "a1b2c3d4") true
         (addCategory "life" (Some "Travel") "a1b2c3d4" (initialState "2024-01-01")))
    = (<["cat_" +:+ "a1b2c3d4" := createSchema []]>
         (customSchemas (initialState "2024-01-01"))).
Proof.
  assert (H1 : nonempty "Travel" = true) by reflexivity.
  assert (H2 : categoryMeta (initialState "2024-01-01") !! ("cat_" +:+ "a1b2c3d4") = None)
    by (vm_compute; reflexivity).
  split; [exact H1|]. split; [exact H2|].
  exact (proj1 (proj2 (addCategory_deleteCategory "life" "Travel" "a1b2c3d4"
                         (initialState "2024-01-01") H1 H2))).
Defined.

(** ** What the actions leave alone *)

Lemma handleStop_frame (s : AppState) :
  messages (handleStop s) = messages s
  ∧ entries (handleStop s) = entries s
  ∧ rawLogs (handleStop s) = rawLogs s
  ∧ groups (handleStop s) = groups s
  ∧ customSchemas (handleStop s) = customSchemas s.
Proof. unfold handleStop. by destruct (abortControllerRef s). Qed.

Lemma clickRevoke_cases (idx : nat) (s : AppState) :
  clickRevoke idx s = s ∨ ∃ ids, clickRevoke idx s = handleUndo idx ids s.
Proof.
  unfold clickRevoke. destruct (messages s !! idx) as [m|]; [|by left].
  destruct (role m); try by left.
  destruct (relatedEntryIds m) as [ids|]; [|by left].
  destruct (includes _ _); [by left|right; eauto].
Qed.

Lemma perform_frame (a : Action) (s s' : AppState) :
  perform a s = Some s' →
  rawLogs s' = rawLogs s
  ∧ entries s' `sublist_of` entries s
  ∧ (length (messages s') ≤ length (messages s))%nat.
Proof.
  destruct a; cbn [perform].
  - intros [= <-]. destruct (handleStop_frame s) as (-> & -> & -> & _). done.
  - intros [= <-]. unfold handleUndo. cbn. rewrite length_imap.
    split; [done|]. split; [apply sublist_filter|done].
  - intros [= <-]. destruct (clickRevoke_cases idx s) as [->|[ids ->]]; [done|].
    unfold handleUndo. cbn. rewrite length_imap.
    split; [done|]. split; [apply sublist_filter|done].
  - intros [= <-]. unfold handleDeleteMessage. cbn.
    split; [done|]. split; [done|]. apply sublist_length, sublist_delete.
  - intros [= <-]. unfold handleDeleteEntry. destruct confirmed; [|done]. cbn.
    split; [done|]. split; [apply sublist_filter|done].
  - intros [= <-]. unfold addGroup. destruct label as [l|]; [|done].
    by destruct (nonempty l).
  - intros [= <-]. unfold deleteGroup, alert. destruct (isCoreGroup id); [done|].
    by destruct confirmed.
  - intros H. apply moveGroup_Some in H as [->|(x & y & _ & _ & ->)]; done.
  - intros [= <-]. unfold addCategory. destruct label as [l|]; [|done].
    by destruct (nonempty l).
  - intros [= <-]. unfold deleteCategory. destruct confirmed; [|done].
    by case_bool_decide.
  - by intros [= <-].
  - intros [= <-]. unfold addField. by destruct (editedCategory s).
  - unfold removeField. destruct (editedCategory s) as [c|]; [|by intros [= <-]].
    destruct (fieldsOf c s !! idx) as [f|]; [|done].
    destruct (isStandard (f_key f)); [by intros [= <-]|].
    destruct confirmed; by intros [= <-].
  - unfold updateField. destruct (editedCategory s) as [c|]; [|by intros [= <-]].
    destruct (fieldsOf c s !! idx) as [f|]; [|done]. by intros [= <-].
Qed.

(** Whatever sequence of stop, revoke, delete and schema editor actions is
    performed, the raw log is what it was, no entry is added (the entry store
    is a subsequence of what it was) and no message is added. *)
Theorem actions_add_nothing (l : list Action) (s s' : AppState) :
  performAll l s = Some s' →
  rawLogs s' = rawLogs s
  ∧ entries s' `sublist_of` entries s
  ∧ (length (messages s') ≤ length (messages s))%nat.
Proof.
  revert s. induction l as [|a l IH]; intros s; cbn [performAll].
  - by intros [= <-].
  - destruct (perform a s) as [s1|] eqn:Ha; [|done]. intros Hl.
    destruct (perform_frame a s s1 Ha) as (Hr & He & Hm).
    destruct (IH s1 Hl) as (Hr' & He' & Hm').
    split; [congruence|]. split; [by etrans|lia].
Qed.

Lemma actions_add_nothing_witness :
  ∃ s', performAll sampleActions (stateOf extracted) = Some s'
        ∧ rawLogs s' = rawLogs (stateOf extracted)
        ∧ entries s' `sublist_of` entries (stateOf extracted)
        ∧ (length (messages s') ≤ length (messages (stateOf extracted)))%nat.
Proof.
  eexists. split; [vm_compute; reflexivity|].
  apply (actions_add_nothing sampleActions (stateOf extracted)).
  vm_compute. reflexivity.
Defined.

Lemma perform_core_groups (a : Action) (s s' : AppState) (g : GroupDef) :
  perform a s = Some s' →
  isCoreGroup (g_id g) = true →
  g ∈ groups s → g ∈ groups s'.
Proof.
  intros Ha Hcore Hg.
  destruct a; cbn [perform] in Ha;
    try (injection Ha as <-).
  - by destruct (handleStop_frame s) as (_ & _ & _ & -> & _).
  - done.
  - by destruct (clickRevoke_cases idx s) as [->|[ids ->]].
  - done.
  - unfold handleDeleteEntry. by destruct confirmed.
  - unfold addGroup. destruct label as [l|]; [|done].
    destruct (nonempty l); [|done]. cbn. apply elem_of_app. by left.
  - unfold deleteGroup, alert. destruct (isCoreGroup id) eqn:Hid; [done|].
    destruct confirmed; [|done]. cbn. apply list_elem_of_filter. split; [|done].
    intros Heq. rewrite Heq in Hcore. congruence.
  - apply moveGroup_Some in Ha as [->|(x & y & Hx & Hy & ->)]; [done|].
    cbn. by rewrite (Permutation_insert_swap _ _ _ _ _ Hx Hy).
  - unfold addCategory. destruct label as [l|]; [|done]. by destruct (nonempty l).
  - unfold deleteCategory. destruct confirmed; [|done]. by case_bool_decide.
  - done.
  - unfold addField. by destruct (editedCategory s).
  - unfold removeField in Ha. destruct (editedCategory s) as [c|]; [|by injection Ha as <-].
    destruct (fieldsOf c s !! idx) as [f|]; [|done].
    destruct (isStandard (f_key f)); [by injection Ha as <-|].
    destruct confirmed; by injection Ha as <-.
  - unfold updateField in Ha. destruct (editedCategory s) as [c|]; [|by injection Ha as <-].
    destruct (fieldsOf c s !! idx) as [f|]; [|done]. by injection Ha as <-.
Qed.

(** No sequence of actions loses a core group: a group of the list whose id
    is a core id is still in the list afterwards. *)
Theorem actions_keep_core_groups (l : list Action) (s s' : AppState) (g : GroupDef) :
  performAll l s = Some s' →
  isCoreGroup (g_id g) = true →
  g ∈ groups s → g ∈ groups s'.
Proof.
  revert s. induction l as [|a l IH]; intros s; cbn [performAll].
  - by intros [= <-].
  - destruct (perform a s) as [s1|] eqn:Ha; [|done]. intros Hl Hcore Hg.
    apply (IH s1 Hl Hcore). by eapply perform_core_groups.
Qed.

Lemma actions_keep_core_groups_witness :
  ∃ s', performAll sampleActions (stateOf extracted) = Some s'
        ∧ isCoreGroup (g_id (Group "life" "日常")) = true
        ∧ Group "life" "日常" ∈ groups (stateOf extracted)
        ∧ Group "life" "日常" ∈ groups s'.
Proof.
  assert (H2 : isCoreGroup (g_id (Group "life" "日常")) = true) by reflexivity.
  assert (H3 : Group "life" "日常" ∈ groups (stateOf extracted)) by (vm_compute; left).
  eexists. split; [vm_compute; reflexivity|].
  split; [exact H2|]. split; [exact H3|].
  apply (actions_keep_core_groups sampleActions (stateOf extracted) _ _
           ltac:(vm_compute; reflexivity) H2 H3).
Defined.

Lemma perform_standard_fields (a : Action) (s s' : AppState) (cat k : string) :
  perform a s = Some s' →
  keepsKeys a →
  k ∈ standardFields →
  k ∈ (f_key <$> fieldsOf cat s) →
  k ∈ (f_key <$> fieldsOf cat s').
Proof.
  intros Ha Hkeep Hk Hin.
  destruct a; cbn [perform] in Ha; try (injection Ha as <-).
  - unfold fieldsOf. by destruct (handleStop_frame s) as (_ & _ & _ & _ & ->).
  - done.
  - by destruct (clickRevoke_cases idx s) as [->|[ids ->]].
  - done.
  - unfold handleDeleteEntry. by destruct confirmed.
  - unfold addGroup. destruct label as [l|]; [|done]. by destruct (nonempty l).
  - unfold deleteGroup, alert. destruct (isCoreGroup id); [done|]. by destruct confirmed.
  - by apply moveGroup_Some in Ha as [->|(x & y & _ & _ & ->)].
  - unfold addCategory. destruct label as [l|]; [|done].
    destruct (nonempty l); [|done]. unfold fieldsOf in *.
    change (customSchemas (setEditingSchemaCat ?x (setCustomSchemas ?m ?y))) with m.
    destruct (decide ("cat_" +:+ rnd = cat)) as [<-|Hne];
      [|by rewrite lookup_insert_ne].
    rewrite lookup_insert_eq.
    exact (createSchema_standard [] k Hk).
  - unfold deleteCategory. destruct confirmed; [|done]. by case_bool_decide.
  - done.
  - by apply addField_keeps_keys.
  - destruct (removeField idx confirmed s) as [s1|] eqn:Hr; [|done].
    injection Ha as <-. by eapply removeField_keeps_standard.
  - cbn in Hkeep. by rewrite (updateField_keys _ _ _ _ _ cat Hkeep Ha).
Qed.

(** A category that has a standard field keeps it through every sequence of
    actions none of which patches the key of a field. *)
Theorem actions_keep_standard_fields (l : list Action) (s s' : AppState)
    (cat k : string) :
  performAll l s = Some s' →
  Forall keepsKeys l →
  k ∈ standardFields →
  k ∈ (f_key <$> fieldsOf cat s) →
  k ∈ (f_key <$> fieldsOf cat s').
Proof.
  revert s. induction l as [|a l IH]; intros s; cbn [performAll].
  - by intros [= <-].
  - destruct (perform a s) as [s1|] eqn:Ha; [|done]. intros Hl Hall Hk Hin.
    apply Forall_cons in Hall as [Hkeep Hall].
    apply (IH s1 Hl Hall Hk). by eapply perform_standard_fields.
Qed.

Lemma actions_keep_standard_fields_witness :
  ∃ s', performAll sampleActions (stateOf extracted) = Some s'
        ∧ Forall keepsKeys sampleActions
        ∧ "notes" ∈ standardFields
        ∧ "notes" ∈ (f_key <$> fieldsOf "idea" (stateOf extracted))
        ∧ "notes" ∈ (f_key <$> fieldsOf "idea" s').
Proof.
  assert (H2 : Forall keepsKeys sampleActions) by (repeat constructor).
  assert (H3 : "notes" ∈ standardFields) by (do 3 right; left).
  assert (H4 : "notes" ∈ (f_key <$> fieldsOf "idea" (stateOf extracted)))
    by (vm_compute; do 4 right; left).
  eexists. split; [vm_compute; reflexivity|].
  split; [exact H2|]. split; [exact H3|]. split; [exact H4|].
  apply (actions_keep_standard_fields sampleActions (stateOf extracted) _ _ _
           ltac:(vm_compute; reflexivity) H2 H3 H4).
Defined.

(** ** Chat session, further *)

(** A chat call that settles without an abort appends exactly one model
    message, and its text is never empty: the reply, or [...] for an empty
    reply, or the text that reports a failed call or a missing key. *)
Theorem chat_reply_is_never_empty (rt : Runtime) (t : Turn) (reply : Reply string)
    (repliedAt now : Z) (s : AppState) :
  aborted (controller t) s = false →
  ∃ txt, nonempty txt = true
         ∧ messages (stateOf (resumeChat rt t reply repliedAt now s))
           = messages s ++ [{| role := model; text := txt; timestamp := repliedAt;
                               relatedEntryIds := None |}]
         ∧ entries (stateOf (resumeChat rt t reply repliedAt now s)) = entries s
         ∧ (txt = "Thinking process interrupted or failed."
            ∨ txt = "Error: No API Key" ∨ txt = "..." ∨ reply = Response (Some txt)).
Proof.
  intros Ha. unfold resumeChat, startOrganizer. rewrite Ha.
  set (r := chatWithGemini rt false reply).
  exists (if nonempty r then r else "...").
  split; [by destruct (nonempty r) eqn:Hr|].
  split; [by destruct (organizerEnabled (settings t))|].
  split; [by destruct (organizerEnabled (settings t))|].
  subst r. unfold chatWithGemini.
  destruct (hasApiKey rt); cbn; [|tauto].
  destruct reply as [e|[txt|]]; cbn; [|destruct (nonempty txt); tauto|tauto].
  destruct (String.eqb e "Aborted"); cbn; tauto.
Qed.

Lemma chat_reply_is_never_empty_witness :
  aborted (controller turn0) (stateOf sent) = false
  ∧ ∃ txt, nonempty txt = true
           ∧ messages (stateOf (resumeChat reference_runtime turn0 (Rejected "503")
                                  (noon + 1) (noon + 1) (stateOf sent)))
             = messages (stateOf sent)
               ++ [{| role := model; text := txt; timestamp := noon + 1;
                      relatedEntryIds := None |}].
Proof.
  assert (H : aborted (controller turn0) (stateOf sent) = false) by reflexivity.
  split; [exact H|].
  destruct (chat_reply_is_never_empty reference_runtime turn0 (Rejected "503")
              (noon + 1) (noon + 1) (stateOf sent) H) as (txt & H1 & H2 & _).
  exists txt. exact (conj H1 H2).
Defined.

(** An extraction that carries no candidate ends the turn without a trace:
    no entry, no system message, busy flag cleared and reference reset. That
    covers a rejected call, a response without text, a text that does not
    parse, and the empty array. *)
Theorem empty_extraction_is_silent (rt : Runtime) (t : Turn) (today_ : string)
    (ids : nat -> string) (savedAt : Z) (reply : Reply Text) (s : AppState) :
  yieldsNothing reply →
  resumeOrganizer rt t today_ ids savedAt reply s = Done (finishTurn s).
Proof.
  intros Hy. unfold resumeOrganizer, organizeInput.
  destruct (hasApiKey rt); cbn; [|done].
  destruct reply as [e|[[txt|v]|]]; cbn; try done.
  - by destruct (nonempty txt).
  - destruct v as [| | |str|items|]; cbn in *; try done.
    + by destruct b.
    + by destruct (n =? 0).
    + by subst.
    + by subst.
Qed.

Lemma empty_extraction_is_silent_witness :
  yieldsNothing (Response (Some (Malformed "Sorry, I cannot help with that.")))
  ∧ resumeOrganizer reference_runtime turn0 "2024-01-01" sampleIds (noon + 2)
      (Response (Some (Malformed "Sorry, I cannot help with that.")))
      (stateOf answered)
    = Done (finishTurn (stateOf answered)).
Proof.
  assert (H : yieldsNothing (Response (Some (Malformed "Sorry, I cannot help with that."))))
    by exact I.
  split; [exact H|].
  exact (empty_extraction_is_silent reference_runtime turn0 "2024-01-01" sampleIds
           (noon + 2) _ (stateOf answered) H).
Defined.

Lemma cmapM_newEntry_ids (today_ : string) (ids : nat -> string) (items : list json)
    (i : nat) (es : list Entry) :
  cmapM (newEntry today_ ids) i items = Normal es →
  e_id <$> es = ids <$> seq i (length items).
Proof.
  revert i es. induction items as [|d items IH]; intros i es; cbn.
  - by intros [= <-].
  - destruct (newEntry today_ ids i d) as [e|] eqn:He; [|done]. cbn.
    destruct (cmapM (newEntry today_ ids) (S i) items) as [es'|] eqn:Hes; [|done].
    cbn. intros [= <-]. cbn. f_equal; [|by apply IH].
    unfold newEntry in He. destruct d; cbn in He; try done; by inversion He.
Qed.

Lemma cmapM_newEntry_null (today_ : string) (ids : nat -> string) (items : list json)
    (i : nat) :
  JNull ∈ items →
  cmapM (newEntry today_ ids) i items
  = Throw "TypeError: Cannot read properties of null".
Proof.
  revert i. induction items as [|d items IH]; intros i Hin.
  - by apply elem_of_nil in Hin.
  - cbn. destruct d; try reflexivity;
      (apply elem_of_cons in Hin as [Hd|Hin]; [discriminate Hd|]);
      cbn; by rewrite (IH _ Hin).
Qed.

(** An extraction stores the whole batch with its system message, or
    nothing. Either the entry store and the message log are what they were,
    or the reply was an array, one entry per element was appended, in order
    and under the identifiers drawn for the elements, and one system message
    was appended that links exactly the identifiers of the batch. *)
Theorem extraction_is_all_or_nothing (rt : Runtime) (t : Turn) (today_ : string)
    (ids : nat -> string) (savedAt : Z) (reply : Reply Text) (s : AppState) :
  let r := resumeOrganizer rt t today_ ids savedAt reply s in
  (entries (stateOf r) = entries s ∧ messages (stateOf r) = messages s)
  ∨ ∃ items es saved,
      reply = Response (Some (WellFormed (JArr items)))
      ∧ e_id <$> es = ids <$> seq 0 (length items)
      ∧ entries (stateOf r) = entries s ++ es
      ∧ messages (stateOf r)
        = messages s ++ [{| role := system; text := saved; timestamp := savedAt;
                            relatedEntryIds := Some (e_id <$> es) |}].
Proof.
  cbn zeta. unfold resumeOrganizer.
  destruct (organizeInput rt reply) as [v|] eqn:Ho; [|by left].
  destruct (truthy v && lengthPositive rt v) eqn:Hc; [|by left].
  unfold mapEntries. destruct v as [| | | |items|]; try by left.
  destruct (cmapM (newEntry today_ ids) 0 items) as [es|] eqn:Hes; [|by left].
  destruct (savedText rt es) as [saved|]; [|by left].
  right. exists items, es, saved.
  split.
  { assert (Hne : items ≠ []) by (intros ->; cbn in Hc; discriminate).
    unfold organizeInput in Ho. destruct (hasApiKey rt); cbn in Ho;
      [|by inversion Ho; subst].
    destruct reply as [e|[[txt|w]|]]; cbn in Ho;
      try (by inversion Ho; subst).
    destruct (nonempty txt); cbn in Ho; by inversion Ho; subst. }
  split; [by eapply cmapM_newEntry_ids|].
  done.
Qed.

Lemma filter_fresh (old : list Entry) (idsNew : list string) :
  Forall (λ e, e_id e ∉ idsNew) old →
  filter (λ e, e_id e ∉ idsNew) old = old.
Proof.
  induction 1 as [|e old He _ IH]; [done|].
  rewrite filter_cons_True by done. by rewrite IH.
Qed.

Lemma filter_listed (es : list Entry) (l : list string) :
  Forall (λ e, e_id e ∈ l) es →
  filter (λ e, e_id e ∉ l) es = [].
Proof.
  induction 1 as [|e es' He _ IH]; [done|].
  rewrite filter_cons_False by tauto. exact IH.
Qed.

Lemma filter_own_ids (es : list Entry) :
  filter (λ e, e_id e ∉ (e_id <$> es)) es = [].
Proof.
  apply filter_listed, Forall_forall. intros e He. by apply list_elem_of_fmap_2.
Qed.

(** Revoking right after an extraction undoes it: when the identifiers drawn
    for the batch are not those of entries already stored, and no message of
    the resulting log contains the mark, the control of the new system
    message gives back the entry store as it was before the extraction, and
    the message is marked. *)
Theorem extract_then_revoke (rt : Runtime) (t : Turn) (today_ : string)
    (ids : nat -> string) (savedAt : Z) (items : list json) (s post : AppState) :
  hasApiKey rt = true →
  items ≠ [] →
  resumeOrganizer rt t today_ ids savedAt
    (Response (Some (WellFormed (JArr items)))) s = Done post →
  Forall (λ e, e_id e ∉ (ids <$> seq 0 (length items))) (entries s) →
  Forall (λ m, includes (text m) "(Revoked)" = false) (messages post) →
  (length (entries post) = length (entries s) + length items)%nat
  ∧ entries (clickRevoke (length (messages s)) post) = entries s
  ∧ (λ m, includes (text m) "(Revoked)")
      <$> messages (clickRevoke (length (messages s)) post) !! length (messages s)
    = Some true.
Proof.
  intros Hkey Hne Hdone Hfresh Hmark.
  unfold resumeOrganizer, organizeInput in Hdone. rewrite Hkey in Hdone.
  cbn in Hdone. rewrite bool_decide_eq_false_2 in Hdone by done. cbn in Hdone.
  destruct (cmapM (newEntry today_ ids) 0 items) as [es|] eqn:Hes; [|done].
  pose proof (cmapM_newEntry_ids _ _ _ _ _ Hes) as Hids.
  destruct (savedText rt es) as [saved|]; [|done].
  injection Hdone as <-.
  assert (Hlen : length es = length items).
  { rewrite <- (length_fmap e_id es), Hids, length_fmap. apply length_seq. }
  split; [cbn; rewrite length_app; lia|].
  set (sys := {| role := system; text := saved; timestamp := savedAt;
                 relatedEntryIds := Some (e_id <$> es) |}).
  assert (Hinc : includes saved "(Revoked)" = false).
  { rewrite Forall_forall in Hmark. apply (Hmark sys).
    cbn. apply elem_of_app. right. by left. }
  unfold clickRevoke. cbn [messages finishTurn setAbortControllerRef setIsProcessing
                            setMessages setEntries].
  rewrite list_lookup_middle by done.
  change (role sys) with system.
  change (relatedEntryIds sys) with (Some (e_id <$> es)).
  change (text sys) with saved.
  cbv iota. rewrite Hinc.
  split.
  - rewrite handleUndo_entries. cbn. rewrite filter_app, filter_own_ids, app_nil_r.
    apply filter_fresh. by rewrite Hids.
  - rewrite handleUndo_message, Nat.eqb_refl. cbn.
    rewrite list_lookup_middle by done. cbn.
    by rewrite revoked_is_marked.
Qed.

Lemma extract_then_revoke_witness :
  hasApiKey reference_runtime = true
  ∧ [candidate "dining" "lunch"; candidate "movie" "film"] ≠ []
  ∧ entries (clickRevoke (length (messages (stateOf answered))) (stateOf extracted))
    = entries (stateOf answered).
Proof.
  assert (H1 : hasApiKey reference_runtime = true) by reflexivity.
  assert (H2 : [candidate "dining" "lunch"; candidate "movie" "film"] ≠ [])
    by discriminate.
  assert (H3 : resumeOrganizer reference_runtime turn0 "2024-01-01" sampleIds (noon + 2)
                 (Response (Some (WellFormed (JArr [candidate "dining" "lunch";
                                                    candidate "movie" "film"]))))
                 (stateOf answered)
               = Done (stateOf extracted)) by (vm_compute; reflexivity).
  assert (H4 : Forall (λ e, e_id e ∉ (sampleIds <$> seq 0 (length
                 [candidate "dining" "lunch"; candidate "movie" "film"])))
                 (entries (stateOf answered))) by (vm_compute; constructor).
  assert (H5 : Forall (λ m, includes (text m) "(Revoked)" = false)
                 (messages (stateOf extracted)))
    by (vm_compute; repeat constructor).
  split; [exact H1|]. split; [exact H2|].
  exact (proj1 (proj2 (extract_then_revoke reference_runtime turn0 "2024-01-01"
                         sampleIds (noon + 2) _ _ _ H1 H2 H3 H4 H5))).
Defined.

(** One [null] among the candidates voids the batch and wedges the session:
    the handler rejects before anything is stored, the busy flag is left
    set, so every later submission is ignored, until the stop control clears
    the flag. *)
Theorem null_candidate_wedges_session (rt : Runtime) (t : Turn) (today_ : string)
    (ids : nat -> string) (savedAt : Z) (items : list json) (s : AppState)
    (c : nat) (sentAt : Z) (logId : string) (now : Z) :
  hasApiKey rt = true →
  JNull ∈ items →
  isProcessing s = true →
  abortControllerRef s = Some c →
  let r := resumeOrganizer rt t today_ ids savedAt
             (Response (Some (WellFormed (JArr items)))) s in
  r = Fail s "TypeError: Cannot read properties of null"
  ∧ handleSendMessage rt sentAt logId now (stateOf r) = Done (stateOf r)
  ∧ isProcessing (handleStop (stateOf r)) = false.
Proof.
  intros Hkey Hnull Hbusy Href. cbn zeta.
  assert (Hne : items ≠ []) by (intros ->; by apply elem_of_nil in Hnull).
  assert (Hr : resumeOrganizer rt t today_ ids savedAt
                 (Response (Some (WellFormed (JArr items)))) s
               = Fail s "TypeError: Cannot read properties of null").
  { unfold resumeOrganizer, organizeInput. rewrite Hkey. cbn.
    rewrite bool_decide_eq_false_2 by done. cbn.
    by rewrite (cmapM_newEntry_null _ _ _ _ Hnull). }
  rewrite Hr. cbn [stateOf]. split; [done|]. split.
  - unfold handleSendMessage. rewrite Hbusy. by destruct (blank (inputText s)).
  - unfold handleStop. by rewrite Href.
Qed.

Lemma null_candidate_wedges_session_witness :
  let s := setInputText "again" (stateOf answered) in
  hasApiKey reference_runtime = true
  ∧ JNull ∈ [candidate "dining" "lunch"; JNull]
  ∧ isProcessing s = true
  ∧ abortControllerRef s = Some 0%nat
  ∧ resumeOrganizer reference_runtime turn0 "2024-01-01" sampleIds (noon + 2)
      (Response (Some (WellFormed (JArr [candidate "dining" "lunch"; JNull])))) s
    = Fail s "TypeError: Cannot read properties of null"
  ∧ handleSendMessage reference_runtime (noon + 9) "log2" (noon + 9) s = Done s.
Proof.
  cbn zeta.
  assert (H1 : hasApiKey reference_runtime = true) by reflexivity.
  assert (H2 : JNull ∈ [candidate "dining" "lunch"; JNull]) by (right; left).
  assert (H3 : isProcessing (setInputText "again" (stateOf answered)) = true)
    by reflexivity.
  assert (H4 : abortControllerRef (setInputText "again" (stateOf answered)) = Some 0%nat)
    by reflexivity.
  pose proof (null_candidate_wedges_session reference_runtime turn0 "2024-01-01"
                sampleIds (noon + 2) _ (setInputText "again" (stateOf answered)) 0
                (noon + 9) "log2" (noon + 9) H1 H2 H3 H4) as (Hr & Hs & _).
  split; [exact H1|]. split; [exact H2|]. split; [exact H3|]. split; [exact H4|].
  split; [exact Hr|].
  rewrite Hr in Hs. exact Hs.
Defined.

(** The history handed to the chat call of a submission is selected from
    the log as it was before the submission: it is a subsequence of the
    earlier messages, of the user only, and the message being sent is passed
    beside it, not in it. *)
Theorem submit_hands_over_earlier_messages (rt : Runtime) (sentAt : Z)
    (logId : string) (now : Z) (s s1 : AppState) (t : Turn)
    (h : list ChatMessage) (m : string) :
  handleSendMessage rt sentAt logId now s = Await s1 (AwaitChat t h m) →
  h `sublist_of` messages s
  ∧ Forall (λ x, role x = user) h
  ∧ m = inputText s
  ∧ messages s1 = messages s ++ [userSaid (inputText s) sentAt].
Proof.
  intros Hsend.
  destruct (handleSendMessage_chat_turn _ _ _ _ _ _ _ _ _ Hsend) as (_ & _ & _ & ->).
  split; [apply getFilteredHistory_sublist|].
  split; [apply Forall_forall; intros x; apply getFilteredHistory_user|].
  unfold handleSendMessage in Hsend.
  destruct (blank (inputText s)); [done|].
  destruct (isProcessing s); [done|].
  destruct (chatEnabled (chatSettings s)).
  - by inversion Hsend.
  - unfold startOrganizer in Hsend. cbn [settings] in Hsend.
    destruct (organizerEnabled (chatSettings s)); discriminate Hsend.
Qed.

Lemma submit_hands_over_earlier_messages_witness :
  let s := setInputText "and now?" (stateOf extracted) in
  ∃ s1 h,
    handleSendMessage reference_runtime (noon + 60000) "log2" (noon + 60000) s
    = Await s1 (AwaitChat {| controller := 1; userMsg := userSaid "and now?" (noon + 60000);
                             settings := settingsWith true true 10 global |}
                  h "and now?")
    ∧ h = [userSaid "lunch then a film" noon]
    ∧ h `sublist_of` messages s.
Proof.
  cbn zeta. eexists. eexists.
  assert (H : handleSendMessage reference_runtime (noon + 60000) "log2" (noon + 60000)
                (setInputText "and now?" (stateOf extracted))
              = Await _ (AwaitChat {| controller := 1;
                                     userMsg := userSaid "and now?" (noon + 60000);
                                     settings := settingsWith true true 10 global |}
                           [userSaid "lunch then a film" noon] "and now?"))
    by (vm_compute; reflexivity).
  split; [exact H|]. split; [reflexivity|].
  exact (proj1 (submit_hands_over_earlier_messages _ _ _ _ _ _ _ _ _ H)).
Defined.

(** ** Regeneration *)



Lemma handleRegenerateChat_Await (rt : Runtime) (msgIndex : nat) (now : Z)
    (s s1 : AppState) (c : nat) (h : list ChatMessage) (newMsg : string)
    (reg : bool) :
  handleRegenerateChat rt msgIndex now s = RegenAwait s1 c h newMsg reg →
  reg = true
  ∧ c = length (controllers s)
  ∧ s1 = setAbortControllerRef (Some c)
           (setControllers (controllers s ++ [false]) (setIsProcessing true s))
  ∧ (∃ u, last (filter (λ m, Is_true (Role_eqb (role m) user))
                  (take msgIndex (messages s))) = Some u ∧ newMsg = text u)
  ∧ (h = []
     ∨ ∃ target, messages s !! msgIndex = Some target
         ∧ h = filter (λ m, Is_true (timestamp m <? timestamp target))
                 (getFilteredHistory rt now s)).
Proof.
  unfold handleRegenerateChat.
  destruct (last _) as [u|]; [|done].
  destruct (getFilteredHistory rt now s) as [|x sel].
  - intros H. inversion H; subst. repeat split; eauto.
  - destruct (messages s !! msgIndex) as [target|]; [|done].
    intros H. inversion H; subst. repeat split; eauto.
Qed.






(** The stop control during the chat call of a regeneration: when the call
    settles the message log is the one before the regeneration, whatever the
    reply. *)
Theorem stop_during_regeneration (rt : Runtime) (msgIndex : nat) (now : Z)
    (s s1 : AppState) (c : nat) (h : list ChatMessage) (newMsg : string)
    (reg : bool) (reply : Reply string) :
  handleRegenerateChat rt msgIndex now s = RegenAwait s1 c h newMsg reg →
  ∃ s', resumeRegenerate rt msgIndex c reply (handleStop s1) = Some s'
        ∧ messages s' = messages s
        ∧ entries s' = entries s
        ∧ isProcessing s' = false.
Proof.
  intros Hr.
  destruct (handleRegenerateChat_Await _ _ _ _ _ _ _ _ _ Hr) as (_ & Hc & -> & _ & _).
  unfold handleStop, resumeRegenerate. cbn.
  assert (Ha : aborted c (setIsProcessing false
                 (abort c (setAbortControllerRef (Some c)
                    (setControllers (controllers s ++ [false])
                       (setIsProcessing true s))))) = true).
  { unfold aborted, abort. cbn. rewrite list_lookup_insert_eq; [done|].
    rewrite length_app. cbn. lia. }
  rewrite Ha. eexists. split; [done|]. done.
Qed.

Lemma stop_during_regeneration_witness :
  handleRegenerateChat reference_runtime 1 (noon + 60000) (stateOf extracted)
  = RegenAwait regenerating 1 [userSaid "lunch then a film" noon] "lunch then a film"
      true
  ∧ ∃ s', resumeRegenerate reference_runtime 1 1 (Response (Some "Bon appetit!"))
            (handleStop regenerating) = Some s'
          ∧ messages s' = messages (stateOf extracted).
Proof.
  assert (H1 : handleRegenerateChat reference_runtime 1 (noon + 60000) (stateOf extracted)
               = RegenAwait regenerating 1 [userSaid "lunch then a film" noon]
                   "lunch then a film" true)
    by (vm_compute; reflexivity).
  split; [exact H1|].
  destruct (stop_during_regeneration reference_runtime 1 (noon + 60000) (stateOf extracted)
              regenerating 1 _ _ _ (Response (Some "Bon appetit!")) H1)
    as (s' & Hres & Hm & _).
  exists s'. split; [exact Hres|exact Hm].
Defined.

(** A regeneration started while the chat call of a submission is in flight
    takes the stop control over: used then, it aborts the regeneration and
    not the submission, whose reply is appended to the log when it comes. *)
Theorem regeneration_takes_over_stop (rt : Runtime) (sentAt : Z) (logId : string)
    (now : Z) (s s1 : AppState) (t : Turn) (h : list ChatMessage) (txt : string)
    (msgIndex : nat) (now1 : Z) (s2 : AppState) (c : nat) (h1 : list ChatMessage)
    (newMsg : string) (reg : bool) (reply : Reply string) (repliedAt now2 : Z) :
  handleSendMessage rt sentAt logId now s = Await s1 (AwaitChat t h txt) →
  handleRegenerateChat rt msgIndex now1 s1 = RegenAwait s2 c h1 newMsg reg →
  aborted c (handleStop s2) = true
  ∧ aborted (controller t) (handleStop s2) = false
  ∧ isProcessing (handleStop s2) = false
  ∧ length (messages (stateOf (resumeChat rt t reply repliedAt now2 (handleStop s2))))
    = S (length (messages s1)).
Proof.
  intros Hsend Hr.
  destruct (handleSendMessage_chat_turn _ _ _ _ _ _ _ _ _ Hsend) as (Ht & Hcs & _ & _).
  destruct (handleRegenerateChat_Await _ _ _ _ _ _ _ _ _ Hr) as (_ & Hc & -> & _ & _).
  unfold handleStop. cbn.
  assert (Ha : aborted (controller t)
                 (setIsProcessing false
                    (abort c (setAbortControllerRef (Some c)
                       (setControllers (controllers s1 ++ [false])
                          (setIsProcessing true s1))))) = false).
  { unfold aborted, abort. cbn. rewrite Hcs, Ht, Hc, Hcs.
    rewrite list_lookup_insert_ne by (rewrite length_app; cbn; lia).
    rewrite lookup_app_l by (rewrite length_app; cbn; lia).
    by rewrite list_lookup_middle. }
  split.
  { unfold aborted, abort. cbn. rewrite list_lookup_insert_eq; [done|].
    rewrite length_app. cbn. lia. }
  split; [exact Ha|]. split; [done|].
  unfold resumeChat. rewrite Ha. unfold startOrganizer.
  destruct (organizerEnabled (settings t)); cbn; rewrite length_app; cbn; lia.
Qed.

Lemma regeneration_takes_over_stop_witness :
  let step := handleSendMessage reference_runtime (noon + 60000) "log2" (noon + 60000)
                (setInputText "and now?" (stateOf extracted)) in
  let t := {| controller := 1; userMsg := userSaid "and now?" (noon + 60000);
              settings := settingsWith true true 10 global |} in
  let s2 := setAbortControllerRef (Some 2%nat)
              (setControllers [false; false; false]
                 (setIsProcessing true (stateOf step))) in
  step = Await (stateOf step) (AwaitChat t [userSaid "lunch then a film" noon] "and now?")
  ∧ handleRegenerateChat reference_runtime 1 (noon + 60001) (stateOf step)
    = RegenAwait s2 2 [userSaid "lunch then a film" noon] "lunch then a film" true
  ∧ aborted 2 (handleStop s2) = true
  ∧ aborted 1 (handleStop s2) = false.
Proof.
  cbn zeta.
  set (step := handleSendMessage reference_runtime (noon + 60000) "log2" (noon + 60000)
                 (setInputText "and now?" (stateOf extracted))).
  set (t := {| controller := 1; userMsg := userSaid "and now?" (noon + 60000);
               settings := settingsWith true true 10 global |}).
  set (s2 := setAbortControllerRef (Some 2%nat)
               (setControllers [false; false; false]
                  (setIsProcessing true (stateOf step)))).
  assert (H1 : step = Await (stateOf step)
                        (AwaitChat t [userSaid "lunch then a film" noon] "and now?"))
    by (vm_compute; reflexivity).
  assert (H2 : handleRegenerateChat reference_runtime 1 (noon + 60001) (stateOf step)
               = RegenAwait s2 2 [userSaid "lunch then a film" noon] "lunch then a film"
                   true)
    by (vm_compute; reflexivity).
  pose proof (regeneration_takes_over_stop reference_runtime (noon + 60000) "log2"
                (noon + 60000) (setInputText "and now?" (stateOf extracted))
                (stateOf step) t _ _ 1 (noon + 60001) s2 2 _ _ _
                (Response (Some "Sure.")) (noon + 60002) (noon + 60002) H1 H2)
    as (Ha & Hb & _).
  split; [exact H1|]. split; [exact H2|]. split; [exact Ha|exact Hb].
Defined.

(** ** Editing a message and replaying from it *)

Lemma handleSaveAndRegenerate_Some (rt : Runtime) (index : nat) (newText : string)
    (now : Z) (v : ChatView) (r : Replay) :
  handleSaveAndRegenerate rt index newText now v = Some r →
  ∃ m, messages (app v) !! index = Some m
    ∧ r_controller r = length (controllers (app v))
    ∧ controllers (app (r_view r)) = controllers (app v) ++ [false]
    ∧ abortControllerRef (app (r_view r)) = Some (r_controller r)
    ∧ messages (app (r_view r))
      = take index (messages (app v)) ++ [withText m newText].
Proof.
  unfold handleSaveAndRegenerate.
  destruct (messages (app v) !! index) as [m|] eqn:Hm; [|done].
  intros H. inversion H; subst; clear H. cbn.
  exists m. repeat split.
  rewrite (take_S_r _ _ _ Hm).
  assert (Hlen : length (take index (messages (app v))) = index).
  { apply length_take_le. apply lookup_lt_Some in Hm. lia. }
  rewrite insert_app_r_alt by lia.
  by rewrite Hlen, Nat.sub_diag.
Qed.

(** Editing a message and replaying from it cuts the log after the edited
    message: the messages before it stay, the edited one follows with its new
    text, and every later message is dropped, while the entries and the raw
    log stay as they are. The history handed to the chat call is what the
    context selector returns on the cut log, so that it may hold the edited
    message itself. *)
Theorem edit_and_replay_truncates (rt : Runtime) (index : nat) (newText : string)
    (now : Z) (v : ChatView) (r : Replay) :
  handleSaveAndRegenerate rt index newText now v = Some r →
  ∃ m, messages (app v) !! index = Some m
    ∧ messages (app (r_view r))
      = take index (messages (app v)) ++ [withText m newText]
    ∧ entries (app (r_view r)) = entries (app v)
    ∧ rawLogs (app (r_view r)) = rawLogs (app v)
    ∧ editingMsgIndex (r_view r) = None
    ∧ isProcessing (app (r_view r)) = true
    ∧ aborted (r_controller r) (app (r_view r)) = false
    ∧ r_history r = getFilteredHistory rt now (app (r_view r)).
Proof.
  intros Hr.
  destruct (handleSaveAndRegenerate_Some _ _ _ _ _ _ Hr) as (m & Hm & Hc & Hcs & _ & Hmsgs).
  exists m. split; [exact Hm|]. split; [exact Hmsgs|].
  assert (Ha : aborted (r_controller r) (app (r_view r)) = false).
  { unfold aborted. by rewrite Hcs, Hc, list_lookup_middle. }
  unfold handleSaveAndRegenerate in Hr. rewrite Hm in Hr.
  inversion Hr; subst; clear Hr. cbn in *.
  do 4 (split; [done|]). split; [exact Ha|].
  reflexivity.
Qed.

Lemma edit_and_replay_truncates_witness :
  let v := {| app := stateOf extracted; editingMsgIndex := Some 0%nat;
              editingMsgText := "dinner" |} in
  handleSaveAndRegenerate reference_runtime 0 "dinner" (noon + 60000) v = Some replaying
  ∧ messages (app (r_view replaying)) = [userSaid "dinner" noon]
  ∧ r_history replaying = [userSaid "dinner" noon]
  ∧ length (entries (app (r_view replaying))) = 2%nat.
Proof.
  cbn zeta.
  assert (H : handleSaveAndRegenerate reference_runtime 0 "dinner" (noon + 60000)
                {| app := stateOf extracted; editingMsgIndex := Some 0%nat;
                   editingMsgText := "dinner" |} = Some replaying)
    by (vm_compute; reflexivity).
  destruct (edit_and_replay_truncates reference_runtime 0 "dinner" (noon + 60000) _
              replaying H) as (m & _ & _ & He & _).
  split; [exact H|]. split; [reflexivity|]. split; [reflexivity|].
  rewrite He. vm_compute. reflexivity.
Defined.

(** A replay stores the reply of the chat call as it is: a reply without
    text, or with the empty text, becomes a model message whose text is
    empty. *)
Theorem replay_reply_may_be_empty (rt : Runtime) (c : nat) (reply : Reply string)
    (repliedAt : Z) (s : AppState) :
  hasApiKey rt = true →
  aborted c s = false →
  reply = Response None ∨ reply = Response (Some "") →
  messages (resumeSaveAndRegenerate rt c reply repliedAt s)
  = messages s ++ [{| role := model; text := ""; timestamp := repliedAt;
                      relatedEntryIds := None |}]
  ∧ isProcessing (resumeSaveAndRegenerate rt c reply repliedAt s) = false.
Proof.
  intros Hk Ha Hreply. unfold resumeSaveAndRegenerate, chatWithGemini.
  rewrite Ha, Hk. cbn. by destruct Hreply as [-> | ->].
Qed.

(** The stop control during the chat call of a replay: nothing is appended
    when the call settles, and the messages that the replay dropped do not
    come back. *)
Theorem stop_during_replay (rt : Runtime) (index : nat) (newText : string)
    (now : Z) (v : ChatView) (r : Replay) (reply : Reply string) (repliedAt : Z) :
  handleSaveAndRegenerate rt index newText now v = Some r →
  messages (resumeSaveAndRegenerate rt (r_controller r) reply repliedAt
              (handleStop (app (r_view r))))
  = messages (app (r_view r))
  ∧ length (messages (app (r_view r))) = S index
  ∧ isProcessing (resumeSaveAndRegenerate rt (r_controller r) reply repliedAt
                    (handleStop (app (r_view r)))) = false.
Proof.
  intros Hr.
  destruct (handleSaveAndRegenerate_Some _ _ _ _ _ _ Hr)
    as (m & Hm & Hc & Hcs & Href & Hmsgs).
  assert (Ha : aborted (r_controller r) (handleStop (app (r_view r))) = true).
  { unfold handleStop. rewrite Href. unfold aborted, abort. cbn.
    rewrite Hcs, Hc, list_lookup_insert_eq; [done|].
    rewrite length_app. cbn. lia. }
  unfold resumeSaveAndRegenerate. rewrite Ha.
  split; [unfold handleStop; by rewrite Href|].
  split; [|done].
  rewrite Hmsgs, length_app, length_take_le; [cbn; lia|].
  apply lookup_lt_Some in Hm. lia.
Qed.

Lemma replay_reply_may_be_empty_witness :
  let s := setControllers [false; false] (stateOf extracted) in
  hasApiKey reference_runtime = true
  ∧ aborted 1 s = false
  ∧ last (messages (resumeSaveAndRegenerate reference_runtime 1 (Response None)
                      (noon + 9) s))
    = Some {| role := model; text := ""; timestamp := noon + 9;
              relatedEntryIds := None |}.
Proof.
  cbn zeta.
  assert (H1 : hasApiKey reference_runtime = true) by reflexivity.
  assert (H2 : aborted 1 (setControllers [false; false] (stateOf extracted)) = false)
    by reflexivity.
  split; [exact H1|]. split; [exact H2|].
  rewrite (proj1 (replay_reply_may_be_empty reference_runtime 1 (Response None) (noon + 9)
                    _ H1 H2 (or_introl eq_refl))).
  apply last_snoc.
Defined.

Lemma stop_during_replay_witness :
  let v := {| app := stateOf extracted; editingMsgIndex := Some 0%nat;
              editingMsgText := "dinner" |} in
  handleSaveAndRegenerate reference_runtime 0 "dinner" (noon + 60000) v = Some replaying
  ∧ messages (resumeSaveAndRegenerate reference_runtime 1 (Response (Some "Enjoy!"))
                (noon + 60001) (handleStop (app (r_view replaying))))
    = [userSaid "dinner" noon].
Proof.
  cbn zeta.
  assert (H : handleSaveAndRegenerate reference_runtime 0 "dinner" (noon + 60000)
                {| app := stateOf extracted; editingMsgIndex := Some 0%nat;
                   editingMsgText := "dinner" |} = Some replaying)
    by (vm_compute; reflexivity).
  split; [exact H|].
  exact (proj1 (stop_during_replay reference_runtime 0 "dinner" (noon + 60000) _
                  replaying (Response (Some "Enjoy!")) (noon + 60001) H)).
Defined.

(** Saving an edit and replaying from it fail together, on an index outside
    the log; otherwise the log at the chat call of the replay is the log
    after the plain save, cut after the edited message. *)
Theorem replay_is_save_then_cut (rt : Runtime) (index : nat) (newText : string)
    (now : Z) (v : ChatView) :
  match handleUpdateMessage index newText v,
        handleSaveAndRegenerate rt index newText now v with
  | Some v', Some r =>
      messages (app (r_view r)) = take (S index) (messages (app v'))
      ∧ length (messages (app v')) = length (messages (app v))
      ∧ editingMsgIndex v' = None
      ∧ entries (app v') = entries (app v)
  | None, None => True
  | _, _ => False
  end.
Proof.
  unfold handleUpdateMessage, handleSaveAndRegenerate.
  destruct (messages (app v) !! index) as [m|]; [|done].
  cbn. rewrite take_insert_lt by lia. by rewrite length_insert.
Qed.

(** ** Dashboard and raw log *)

Lemma filter_swap {A} (P Q : A → Prop) `{!∀ x, Decision (P x)} `{!∀ x, Decision (Q x)}
    (l : list A) :
  filter P (filter Q l) = filter Q (filter P l).
Proof.
  rewrite !list_filter_filter. apply list_filter_iff. tauto.
Qed.

(** Deleting an entry on the dashboard and revoking a batch can be done in
    either order: the result is the same, the deleted identifier is in no
    entry, and the deletion alone leaves the message log as it is, revoke
    control included. *)
Theorem delete_entry_commutes_with_undo (id : string) (msgIndex : nat)
    (entryIds : list string) (s : AppState) :
  handleUndo msgIndex entryIds (handleDeleteEntry id true s)
  = handleDeleteEntry id true (handleUndo msgIndex entryIds s)
  ∧ Forall (λ e, e_id e ≠ id) (entries (handleDeleteEntry id true s))
  ∧ messages (handleDeleteEntry id true s) = messages s
  ∧ handleDeleteEntry id false s = s.
Proof.
  split.
  { unfold handleUndo, handleDeleteEntry. cbn. by rewrite filter_swap. }
  split; [|done].
  apply Forall_forall. intros e He. cbn in He.
  by apply list_elem_of_filter in He as [Hid _].
Qed.

(** Saving an edited raw log changes texts only: identifiers and time
    stamps stay in place, every log with the edited identifier gets the new
    text, the chat messages and the entries are untouched, and deleting the
    log afterwards gives what deleting it at once gives. *)
Theorem log_edit_changes_texts_only (id : string) (editingLogText : string)
    (s : AppState) :
  l_id <$> rawLogs (handleSaveLogEdit id editingLogText s) = l_id <$> rawLogs s
  ∧ l_timestamp <$> rawLogs (handleSaveLogEdit id editingLogText s)
    = l_timestamp <$> rawLogs s
  ∧ Forall (λ log, l_text log = editingLogText)
      (filter (λ log, l_id log = id) (rawLogs (handleSaveLogEdit id editingLogText s)))
  ∧ messages (handleSaveLogEdit id editingLogText s) = messages s
  ∧ entries (handleSaveLogEdit id editingLogText s) = entries s
  ∧ handleDeleteLog id true (handleSaveLogEdit id editingLogText s)
    = handleDeleteLog id true s.
Proof.
  unfold handleSaveLogEdit, handleDeleteLog. cbn.
  split.
  { rewrite <- list_fmap_compose. apply list_fmap_ext. intros i log _. cbn.
    by destruct (String.eqb _ _). }
  split.
  { rewrite <- list_fmap_compose. apply list_fmap_ext. intros i log _. cbn.
    by destruct (String.eqb _ _). }
  split.
  { apply Forall_forall. intros log Hin.
    apply list_elem_of_filter in Hin as [Hid Hin].
    apply list_elem_of_fmap in Hin as (log0 & -> & _).
    destruct (String.eqb (l_id log0) id) eqn:He; [done|].
    apply String.eqb_neq in He. done. }
  do 2 (split; [done|]).
  unfold setRawLogs. cbn. f_equal.
  induction (rawLogs s) as [|log l IH]; [done|].
  rewrite fmap_cons, !filter_cons.
  destruct (String.eqb (l_id log) id) eqn:He.
  - apply String.eqb_eq in He. cbn.
    destruct (decide (l_id log ≠ id)); [done|]. exact IH.
  - apply String.eqb_neq in He.
    destruct (decide (l_id log ≠ id)); [|done]. by rewrite IH.
Qed.

(** ** Deleting a message *)

Lemma delete_imap_revoke (i j : nat) (l : list ChatMessage) :
  i ≠ j →
  delete i (imap (λ k m, if (k =? j)%nat then revoke m else m) l)
  = imap (λ k m, if (k =? (if (i <? j)%nat then pred j else j))%nat
                 then revoke m else m) (delete i l).
Proof.
  intros Hij. apply list_eq. intros k. rewrite list_lookup_imap.
  assert (Hk : ∀ a b : nat, a ≠ b → (a =? b)%nat = false)
    by (intros a b; apply Nat.eqb_neq).
  destruct (i <? j)%nat eqn:Hlt.
  - apply Nat.ltb_lt in Hlt. destruct j as [|j']; [lia|]. cbn [pred].
    destruct (decide (k < i)%nat) as [Hki|Hki].
    + rewrite !list_lookup_delete_lt, list_lookup_imap by done.
      rewrite (Hk k (S j')), (Hk k j') by lia. done.
    + rewrite !list_lookup_delete_ge, list_lookup_imap by lia.
      change (S k =? S j')%nat with (k =? j')%nat. done.
  - apply Nat.ltb_ge in Hlt.
    destruct (decide (k < i)%nat) as [Hki|Hki].
    + rewrite !list_lookup_delete_lt, list_lookup_imap by done. done.
    + rewrite !list_lookup_delete_ge, list_lookup_imap by lia.
      rewrite (Hk (S k) j), (Hk k j) by lia. done.
Qed.

(** The revoke control is bound to a position in the log, and deleting
    another message keeps the binding: deleting message [i] and then using
    the control of the message that stood at [j] (now at [j - 1] when [i] was
    before it) gives what using the control first and deleting after gives. *)
Theorem delete_message_shifts_revoke (i j : nat) (s : AppState) :
  i ≠ j →
  clickRevoke (if (i <? j)%nat then pred j else j) (handleDeleteMessage i s)
  = handleDeleteMessage i (clickRevoke j s).
Proof.
  intros Hij. unfold clickRevoke, handleDeleteMessage.
  change (messages (setMessages ?x s)) with x.
  assert (Hl : delete i (messages s) !! (if (i <? j)%nat then pred j else j)
               = messages s !! j).
  { destruct (i <? j)%nat eqn:Hlt.
    - apply Nat.ltb_lt in Hlt. rewrite list_lookup_delete_ge by lia.
      f_equal. lia.
    - apply Nat.ltb_ge in Hlt. rewrite list_lookup_delete_lt by lia. done. }
  rewrite Hl. destruct (messages s !! j) as [m|]; [|done].
  destruct (role m); try done.
  destruct (relatedEntryIds m) as [ids|]; [|done].
  destruct (includes (text m) "(Revoked)"); [done|].
  unfold handleUndo, setMessages, setEntries. cbn. f_equal.
  symmetry. by apply delete_imap_revoke.
Qed.

Lemma delete_message_shifts_revoke_witness :
  (0 ≠ 2)%nat
  ∧ clickRevoke 1 (handleDeleteMessage 0 (stateOf extracted))
    = handleDeleteMessage 0 (clickRevoke 2 (stateOf extracted))
  ∧ entries (clickRevoke 1 (handleDeleteMessage 0 (stateOf extracted))) = [].
Proof.
  assert (H : (0 ≠ 2)%nat) by discriminate.
  split; [exact H|].
  split; [exact (delete_message_shifts_revoke 0 2 (stateOf extracted) H)|].
  vm_compute. reflexivity.
Defined.

(** ** Rolling week and context window *)

Lemma setHours_midnight (rt : Runtime) (t : Z) :
  (setHours rt t 0 0 0 0 + tzOffset rt) mod msPerDay = 0
  ∧ setHours rt t 0 0 0 0 ≤ t < setHours rt t 0 0 0 0 + msPerDay
  ∧ setHours rt t 0 0 0 0 + tzOffset rt = msPerDay * localDay rt t.
Proof.
  unfold setHours, localDay, msPerDay.
  pose proof (Z.div_mod (t + tzOffset rt) 86400000 ltac:(lia)) as Hdm.
  pose proof (Z.mod_pos_bound (t + tzOffset rt) 86400000 ltac:(lia)) as Hb.
  assert (Heq : t - (t + tzOffset rt) mod 86400000 + ((0 * 60 + 0) * 60 + 0) * 1000 + 0
                + tzOffset rt
                = 86400000 * ((t + tzOffset rt) / 86400000)) by lia.
  split; [|split; [lia|exact Heq]].
  rewrite Heq, Z.mul_comm. apply Z.mod_mul. lia.
Qed.

(** The rolling week starts at the local midnight at or before the given
    time and ends one millisecond before the local midnight seven days
    later: it holds the given time in its first day and looks forward from
    there. *)
Theorem rolling_week_looks_forward (rt : Runtime) (now : Z) :
  let start := (getRollingWeekRange rt now).1 in
  let end_ := (getRollingWeekRange rt now).2 in
  (start + tzOffset rt) mod msPerDay = 0
  ∧ start ≤ now < start + msPerDay
  ∧ end_ = start + 7 * msPerDay - 1.
Proof.
  cbn zeta. unfold getRollingWeekRange. cbn [fst snd].
  destruct (setHours_midnight rt now) as (Hmid & Hin & _).
  split; [exact Hmid|]. split; [exact Hin|].
  set (start := setHours rt now 0 0 0 0) in *.
  unfold setHours at 1. unfold addDays.
  replace (start + 6 * msPerDay + tzOffset rt)
    with (start + tzOffset rt + 6 * msPerDay) by lia.
  rewrite Z.mod_add by (unfold msPerDay; lia).
  rewrite Hmid. unfold msPerDay. lia.
Qed.

(** In week mode, without a depth cap, a message stamped no later than the
    clock is selected exactly when it is a message of the user of the
    current local day: earlier days of the week are left out. *)
Theorem week_mode_keeps_today_only (rt : Runtime) (now : Z) (s : AppState)
    (m : ChatMessage) :
  contextMode (chatSettings s) = week →
  9999 ≤ contextRounds (chatSettings s) →
  timestamp m ≤ now →
  m ∈ getFilteredHistory rt now s
  ↔ m ∈ messages s ∧ role m = user
    ∧ localDay rt (timestamp m) = localDay rt now.
Proof.
  intros Hmode Hr Hle. unfold getFilteredHistory. rewrite Hmode.
  assert ((contextRounds (chatSettings s) <? 9999) = false) as -> by lia.
  unfold getRollingWeekRange.
  rewrite !list_elem_of_filter, andb_True, !Is_true_true, !Z.leb_le.
  destruct (setHours_midnight rt now) as (Hmid & Hin & Hday).
  set (start := setHours rt now 0 0 0 0) in *.
  assert (Hend : setHours rt (addDays start 6) 23 59 59 999 = start + 7 * msPerDay - 1).
  { unfold setHours at 1. unfold addDays.
    replace (start + 6 * msPerDay + tzOffset rt)
      with (start + tzOffset rt + 6 * msPerDay) by lia.
    rewrite Z.mod_add by (unfold msPerDay; lia).
    rewrite Hmid. unfold msPerDay. lia. }
  rewrite Hend.
  assert (Hiff : start ≤ timestamp m ↔ localDay rt (timestamp m) = localDay rt now).
  { unfold localDay in *. unfold msPerDay in *.
    pose proof (Z.div_mod (timestamp m + tzOffset rt) 86400000 ltac:(lia)) as Hdm.
    pose proof (Z.mod_pos_bound (timestamp m + tzOffset rt) 86400000 ltac:(lia)) as Hb.
    pose proof (Z.div_le_mono (timestamp m + tzOffset rt) (now + tzOffset rt) 86400000
                  ltac:(lia) ltac:(lia)) as Hmono.
    split.
    - intros Hs.
      pose proof (Z.div_le_lower_bound (timestamp m + tzOffset rt) 86400000
                    ((now + tzOffset rt) / 86400000) ltac:(lia) ltac:(lia)).
      lia.
    - intros Heq. rewrite <- Heq in Hday. lia. }
  split.
  - intros ((Hs & _) & Hu & Hm). split; [done|]. split; [by destruct (role m)|].
    by apply Hiff.
  - intros (Hm & Hu & Hd). rewrite Hu. split; [|done].
    split; [by apply Hiff|]. unfold msPerDay in *. lia.
Qed.

Lemma week_mode_keeps_today_only_witness :
  let s := setChatSettings (settingsWith true true 9999 week)
             (setMessages [userSaid "yesterday" (noon - msPerDay);
                           userSaid "lunch then a film" noon] (stateOf extracted)) in
  contextMode (chatSettings s) = week
  ∧ 9999 ≤ contextRounds (chatSettings s)
  ∧ noon - msPerDay ≤ noon + 60000
  ∧ getFilteredHistory reference_runtime (noon + 60000) s
    = [userSaid "lunch then a film" noon]
  ∧ localDay reference_runtime (noon - msPerDay) ≠ localDay reference_runtime (noon + 60000).
Proof.
  cbn zeta.
  set (s := setChatSettings (settingsWith true true 9999 week)
              (setMessages [userSaid "yesterday" (noon - msPerDay);
                            userSaid "lunch then a film" noon] (stateOf extracted))).
  assert (H1 : contextMode (chatSettings s) = week) by reflexivity.
  assert (H2 : 9999 ≤ contextRounds (chatSettings s)) by (vm_compute; discriminate).
  assert (H3 : timestamp (userSaid "yesterday" (noon - msPerDay)) ≤ noon + 60000)
    by (vm_compute; discriminate).
  assert (H4 : getFilteredHistory reference_runtime (noon + 60000) s
               = [userSaid "lunch then a film" noon]) by (vm_compute; reflexivity).
  split; [exact H1|]. split; [exact H2|]. split; [exact H3|]. split; [exact H4|].
  intros Heq.
  assert (Hin : userSaid "yesterday" (noon - msPerDay)
                ∈ getFilteredHistory reference_runtime (noon + 60000) s).
  { apply (week_mode_keeps_today_only reference_runtime (noon + 60000) s _ H1 H2 H3).
    split; [left|]. split; [reflexivity|exact Heq]. }
  rewrite H4 in Hin. apply list_elem_of_singleton in Hin. discriminate Hin.
Defined.
